(** * Derived metrics of the Sardis Lake dashboard

    A shallow embedding of the pure calculations of the dashboard
    (flood impact, boat-ramp status, recreation-day rating, moon phase,
    solunar periods, fishing-activity index) and the properties the
    specification states about them.

    Number model.  JavaScript numbers are modelled as exact rationals
    [Q]: every finite input is covered, arithmetic is exact, and the
    values NaN and the infinities are outside the model.  The results of
    [Math.round] and [Math.floor], and scores built from integer
    constants only, are integers and are given the type [Z].  A [Date]
    is modelled by its time value (milliseconds since the Unix epoch, the
    result of [getTime()]). *)

From Stdlib Require Import ZArith QArith Qround Qabs Lia Lqa Bool List.
From Stdlib Require Import Ascii String DecimalString.
Import ListNotations.

Local Open Scope Q_scope.

(** ** JavaScript primitives used by the components *)

Module JS.

(** Comparison operators on numbers, as booleans. *)
Definition leb (x y : Q) : bool := Qle_bool x y.
Definition ltb (x y : Q) : bool := negb (Qle_bool y x).
Definition geb (x y : Q) : bool := leb y x.
Definition gtb (x y : Q) : bool := ltb y x.

(** [Math.round]: nearest integer, a tie goes towards plus infinity. *)
Definition Math_round (x : Q) : Z := Qfloor (x + (1 # 2)).

Definition Math_floor (x : Q) : Z := Qfloor x.

Definition Math_abs (x : Q) : Q := Qabs x.

(** Integer part, rounding towards zero. *)
Definition trunc (x : Q) : Z :=
  if leb 0 x then Qfloor x else Qceiling x.

(** The remainder operator [x % y]: the result takes the sign of the
    dividend [x] (truncated division), for [y] different from zero. *)
Definition rem (x y : Q) : Q := x - y * inject_Z (trunc (x / y)).

(** Decimal text of an integer, as a template literal prints it. *)
Definition string_of_Z (z : Z) : string :=
  NilZero.string_of_int (Z.to_int z).

Fixpoint zeros (n : nat) : string :=
  match n with
  | O => EmptyString
  | S k => String "0"%char (zeros k)
  end.

(** [x.toFixed(f)], for |x| below 10^21: the sign, then the integer [n]
    nearest to |x| * 10^f (the larger one on a tie) written with a
    decimal point before its last [f] digits. *)
Definition toFixed (x : Q) (f : nat) : string :=
  let s := if ltb x 0 then "-"%string else EmptyString in
  let ax := if ltb x 0 then - x else x in
  let n := Qfloor (ax * inject_Z (10 ^ Z.of_nat f) + (1 # 2)) in
  let m := NilZero.string_of_uint (N.to_uint (Z.to_N n)) in
  match f with
  | O => (s ++ m)%string
  | S _ =>
      let k := String.length m in
      let m := if (k <=? f)%nat then (zeros (f + 1 - k) ++ m)%string else m in
      let k := String.length m in
      (s ++ substring 0 (k - f) m ++ "." ++ substring (k - f) f m)%string
  end.

End JS.

(** The double remainder [((x % y) + y) % y], the idiom [getMoonData]
    normalises its lunar day with. *)
Definition norm (x y : Q) : Q := JS.rem (JS.rem x y + y) y.

Declare Scope js_scope.
Delimit Scope js_scope with js.
Infix "<=?" := JS.leb (at level 70, no associativity) : js_scope.
Infix "<?" := JS.ltb (at level 70, no associativity) : js_scope.
Infix ">=?" := JS.geb (at level 70, no associativity) : js_scope.
Infix ">?" := JS.gtb (at level 70, no associativity) : js_scope.
Local Open Scope js_scope.

(** ** Flood-impact estimator (lake analysis platform) *)

Record LakeData := {
  normalPoolElevation : Q;
  floodStageElevation : Q;
  streamBedElevation : Q;
  topOfDamElevation : Q;
  surfaceArea : Q;
  shorelineLength : Q;
  maxDepth : Q;
  volume : Q;
  drainageArea : Q
}.

Definition SARDIS_LAKE_DATA : LakeData := {|
  normalPoolElevation := 599;
  floodStageElevation := 607;
  streamBedElevation := 530;
  topOfDamElevation := 631;
  surfaceArea := 14360;
  shorelineLength := 117;
  maxDepth := 55.2;
  volume := 274330;
  drainageArea := 275
|}.

Record FloodImpact := {
  additionalAcres : Z;
  impactedStructures : Z;
  evacuationZone : Z;
  difference : Q
}.

(** The body of [calculateFloodImpact], for the lake record it reads the
    normal pool elevation from. *)
Definition floodImpactOf (lake : LakeData) (elevation : Q) : FloodImpact :=
  let normalPool := normalPoolElevation lake in
  let difference := elevation - normalPool in
  let additionalAcres :=
    if difference >? 0 then JS.Math_round (difference * 180) else 0%Z in
  let impactedStructures :=
    if difference >? 5 then JS.Math_round ((difference - 5) * 12) else 0%Z in
  let evacuationZone :=
    if difference >? 8 then JS.Math_round ((difference - 8) * 0.5) else 0%Z in
  {| additionalAcres := additionalAcres;
     impactedStructures := impactedStructures;
     evacuationZone := evacuationZone;
     difference := difference |}.

Definition calculateFloodImpact (elevation : Q) : FloodImpact :=
  floodImpactOf SARDIS_LAKE_DATA elevation.

(** ** Boat-ramp accessibility *)

Record Coordinates := { lat : Q; lng : Q }.

Record BoatRamp := {
  id : string;
  name : string;
  location : string;
  minElevation : Q;
  optimalElevation : Q;
  coordinates : Coordinates;
  amenities : list string;
  parkingSpaces : Z;
  phone : option string
}.

Inductive RampStatus := open | limited | closed.

Record RampReport := {
  status : RampStatus;
  message : string;
  launchable : list string
}.

Definition getRampStatus (ramp : BoatRamp) (currentElevation : Q) : RampReport :=
  let diff := currentElevation - minElevation ramp in
  if currentElevation >=? optimalElevation ramp then
    {| status := open;
       message := "Fully operational - optimal conditions";
       launchable := ["All vessels"; "Large boats"; "Pontoons"; "PWC"]%string |}
  else if currentElevation >=? minElevation ramp + 3 then
    {| status := open;
       message := "Accessible - good conditions";
       launchable := ["Most boats"; "Medium vessels"; "PWC"]%string |}
  else if currentElevation >=? minElevation ramp then
    {| status := limited;
       message := ("Limited access - " ++ JS.toFixed diff 1 ++ " ft above minimum")%string;
       launchable := ["Small boats"; "Kayaks"; "Canoes"; "PWC"]%string |}
  else
    {| status := closed;
       message := ("Closed - water " ++ JS.toFixed (JS.Math_abs diff) 1 ++ " ft below minimum")%string;
       launchable := [] |}.

Definition BOAT_RAMPS : list BoatRamp := [
  {| id := "potato-hills"; name := "Potato Hills North"; location := "North Shore";
     minElevation := 590; optimalElevation := 595;
     coordinates := {| lat := 34.6850; lng := -95.3750 |};
     amenities := ["Parking"; "Restrooms"; "Fish Cleaning Station"; "Camping"]%string;
     parkingSpaces := 75; phone := Some "(918) 567-2523"%string |};
  {| id := "potato-hills-south"; name := "Potato Hills South"; location := "South Shore";
     minElevation := 588; optimalElevation := 594;
     coordinates := {| lat := 34.6720; lng := -95.3680 |};
     amenities := ["Parking"; "Restrooms"; "Picnic Area"]%string;
     parkingSpaces := 50; phone := None |};
  {| id := "sardis-cove"; name := "Sardis Cove Marina"; location := "East Shore";
     minElevation := 585; optimalElevation := 592;
     coordinates := {| lat := 34.6550; lng := -95.3550 |};
     amenities := ["Full Service Marina"; "Fuel Dock"; "Boat Rental"; "Store"; "Restaurant"]%string;
     parkingSpaces := 120; phone := Some "(918) 567-2323"%string |};
  {| id := "billy-creek"; name := "Billy Creek"; location := "West Shore";
     minElevation := 592; optimalElevation := 597;
     coordinates := {| lat := 34.6480; lng := -95.4100 |};
     amenities := ["Parking"; "Restrooms"; "Primitive Camping"]%string;
     parkingSpaces := 35; phone := None |};
  {| id := "jackfork"; name := "Jackfork Creek"; location := "Northwest Arm";
     minElevation := 594; optimalElevation := 598;
     coordinates := {| lat := 34.6900; lng := -95.4200 |};
     amenities := ["Parking"; "Hiking Trails"]%string;
     parkingSpaces := 25; phone := None |}
].

(** ** Recreation-day rating (recreation planner) *)

Inductive Rating := Excellent | Good | Fair | Poor.

Record DayInput := {
  tempHigh : Q;
  precipProbability : Q;
  windSpeed : Q;
  weatherCode : Q
}.

(** The value of the local variable [score] of [rateDayForRecreation]
    when the function reaches its bucketing. *)
Definition recreationScore (day : DayInput) : Z :=
  let score := 100%Z in
  (* Temperature scoring (ideal: 70-85) *)
  let score :=
    if (tempHigh day <? 50) || (tempHigh day >? 95) then (score - 30)%Z
    else if (tempHigh day <? 60) || (tempHigh day >? 90) then (score - 15)%Z
    else if (tempHigh day >=? 70) && (tempHigh day <=? 85) then (score + 10)%Z
    else score in
  (* Precipitation scoring *)
  let score :=
    if precipProbability day >? 70 then (score - 40)%Z
    else if precipProbability day >? 40 then (score - 20)%Z
    else if precipProbability day >? 20 then (score - 10)%Z
    else score in
  (* Wind scoring *)
  let score :=
    if windSpeed day >? 25 then (score - 25)%Z
    else if windSpeed day >? 15 then (score - 10)%Z
    else score in
  (* Weather code scoring *)
  let score :=
    if weatherCode day >=? 95 then (score - 30)%Z
    else if weatherCode day >=? 61 then (score - 20)%Z
    else if weatherCode day <=? 3 then (score + 5)%Z
    else score in
  score.

Definition rateDayForRecreation (day : DayInput) : Rating :=
  let score := recreationScore day in
  if (score >=? 80)%Z then Excellent
  else if (score >=? 60)%Z then Good
  else if (score >=? 40)%Z then Fair
  else Poor.

(** What each of the four scoring blocks adds to [score]. *)
Definition temperatureAdjustment (day : DayInput) : Z :=
  if (tempHigh day <? 50) || (tempHigh day >? 95) then (-30)%Z
  else if (tempHigh day <? 60) || (tempHigh day >? 90) then (-15)%Z
  else if (tempHigh day >=? 70) && (tempHigh day <=? 85) then 10%Z
  else 0%Z.

Definition precipitationAdjustment (day : DayInput) : Z :=
  if precipProbability day >? 70 then (-40)%Z
  else if precipProbability day >? 40 then (-20)%Z
  else if precipProbability day >? 20 then (-10)%Z
  else 0%Z.

Definition windAdjustment (day : DayInput) : Z :=
  if windSpeed day >? 25 then (-25)%Z
  else if windSpeed day >? 15 then (-10)%Z
  else 0%Z.

Definition weatherCodeAdjustment (day : DayInput) : Z :=
  if weatherCode day >=? 95 then (-30)%Z
  else if weatherCode day >=? 61 then (-20)%Z
  else if weatherCode day <=? 3 then 5%Z
  else 0%Z.


(** ** Moon phase, solunar periods and the fishing-activity index *)

Record MoonInfo := {
  phase : string;
  illumination : Z;
  icon : string
}.

Record Solunar := {
  major : list string;
  minor : list string
}.

Inductive FactorStatus := positive | neutral | negative.

Record Factor := {
  factorName : string;
  score : Z;
  factorStatus : FactorStatus;
  detail : string
}.

Inductive Activity := High | Moderate | Low.

Record Species := {
  speciesName : string;
  activity : Activity
}.

Record FishingConditions := {
  overallScore : Z;
  rating : Rating;
  factors : list Factor;
  bestTime : string;
  targetSpecies : list Species;
  tips : list string
}.

(** The fields of [weather.current] in the Open-Meteo reply. *)
Record CurrentWeather := {
  temperature_2m : Q;
  pressure_msl : Q;
  wind_speed_10m : Q;
  cloud_cover : Q;
  precipitation : Q
}.

(** [array.push(x)] on an array held in a local variable. *)
Definition push {A : Type} (l : list A) (x : A) : list A := l ++ [x].

Section Host.

(** What the host supplies: the offset of its local time zone from UTC
    at the reference instant, in minutes (the value of
    [getTimezoneOffset()] there), and the text of a number in a
    template literal. *)
Variable tzOffsetMinutes : Z.
Variable Number_toString : Q -> string.

(** [new Date(2000, 0, 6, 18, 14, 0).getTime()]: 2000-01-06 18:14:00 of
    the local time zone; 947182440000 is that instant in UTC. *)
Definition newMoon : Q :=
  inject_Z (947182440000 + 60000 * tzOffsetMinutes).

(** *** Fishing index: [getMoonPhase] *)

(** The local variable [lunarDay] of [getMoonPhase]; the locals [year],
    [month], [day] and [lp], which the function never reads, are left
    out. *)
Definition getMoonPhase_lunarDay (date : Q) : Q :=
  let diff := date - newMoon in
  let days := diff / 1000 / 60 / 60 / 24 in
  let lunations := days / 29.53058867 in
  JS.rem lunations 1 * 29.53058867.

(** The chain of conditionals of [getMoonPhase] on [lunarDay]. *)
Definition getMoonPhase_bucket (lunarDay : Q) : MoonInfo :=
  if lunarDay <? 1.85 then
    {| phase := "New Moon"; icon := "🌑"; illumination := 0 |}
  else if lunarDay <? 5.53 then
    {| phase := "Waxing Crescent"; icon := "🌒"; illumination := 25 |}
  else if lunarDay <? 9.22 then
    {| phase := "First Quarter"; icon := "🌓"; illumination := 50 |}
  else if lunarDay <? 12.91 then
    {| phase := "Waxing Gibbous"; icon := "🌔"; illumination := 75 |}
  else if lunarDay <? 16.61 then
    {| phase := "Full Moon"; icon := "🌕"; illumination := 100 |}
  else if lunarDay <? 20.30 then
    {| phase := "Waning Gibbous"; icon := "🌖"; illumination := 75 |}
  else if lunarDay <? 23.99 then
    {| phase := "Last Quarter"; icon := "🌗"; illumination := 50 |}
  else if lunarDay <? 27.68 then
    {| phase := "Waning Crescent"; icon := "🌘"; illumination := 25 |}
  else
    {| phase := "New Moon"; icon := "🌑"; illumination := 0 |}.

Definition getMoonPhase (date : Q) : MoonInfo :=
  let lunarDay := getMoonPhase_lunarDay date in
  getMoonPhase_bucket lunarDay.

(** *** Fishing index: [getSolunarPeriods]

    The function reads neither its [lat] argument nor its local [hour]. *)

Definition formatPeriod (start : Z) : string :=
  let end_ := Z.rem (start + 2) 24 in
  let startStr :=
    if (start >? 12)%Z then (JS.string_of_Z (start - 12) ++ "pm")%string
    else if (start =? 0)%Z then "12am"%string
    else (JS.string_of_Z start ++ "am")%string in
  let endStr :=
    if (end_ >? 12)%Z then (JS.string_of_Z (end_ - 12) ++ "pm")%string
    else if (end_ =? 0)%Z then "12am"%string
    else (JS.string_of_Z end_ ++ "am")%string in
  (startStr ++ "-" ++ endStr)%string.

Definition getSolunarPeriods (date : Q) (lat : Q) : Solunar :=
  let moonPhase := getMoonPhase date in
  let majorStart1 :=
    Z.rem (6 + JS.Math_floor (inject_Z (illumination moonPhase) / 10)) 24 in
  let majorStart2 := Z.rem (majorStart1 + 12) 24 in
  let minorStart1 := Z.rem (majorStart1 + 6) 24 in
  let minorStart2 := Z.rem (minorStart1 + 12) 24 in
  {| major := [formatPeriod majorStart1; formatPeriod majorStart2];
     minor := [formatPeriod minorStart1; formatPeriod minorStart2] |}.

(** *** Recreation planner: [getMoonData] *)

(** The local variable [lunarDay] of [getMoonData]. *)
Definition getMoonData_lunarDay (date : Q) : Q :=
  let diff := date - newMoon in
  JS.rem (JS.rem (diff / 1000 / 60 / 60 / 24) 29.53058867 + 29.53058867)
         29.53058867.

(** The chain of conditionals of [getMoonData] on [lunarDay]. *)
Definition getMoonData_bucket (lunarDay : Q) : MoonInfo :=
  if lunarDay <? 1.85 then
    {| phase := "New Moon"; icon := "ðŸŒ‘"; illumination := 0 |}
  else if lunarDay <? 5.53 then
    {| phase := "Waxing Crescent"; icon := "ðŸŒ’";
       illumination := JS.Math_round ((lunarDay - 1.85) / 3.68 * 25) |}
  else if lunarDay <? 9.22 then
    {| phase := "First Quarter"; icon := "ðŸŒ“"; illumination := 50 |}
  else if lunarDay <? 12.91 then
    {| phase := "Waxing Gibbous"; icon := "ðŸŒ”";
       illumination := 50 + JS.Math_round ((lunarDay - 9.22) / 3.69 * 25) |}
  else if lunarDay <? 16.61 then
    {| phase := "Full Moon"; icon := "ðŸŒ•"; illumination := 100 |}
  else if lunarDay <? 20.30 then
    {| phase := "Waning Gibbous"; icon := "ðŸŒ–";
       illumination := 100 - JS.Math_round ((lunarDay - 16.61) / 3.69 * 25) |}
  else if lunarDay <? 23.99 then
    {| phase := "Last Quarter"; icon := "ðŸŒ—"; illumination := 50 |}
  else if lunarDay <? 27.68 then
    {| phase := "Waning Crescent"; icon := "ðŸŒ˜";
       illumination := 50 - JS.Math_round ((lunarDay - 23.99) / 3.69 * 25) |}
  else
    {| phase := "New Moon"; icon := "ðŸŒ‘"; illumination := 0 |}.

Definition getMoonData (date : Q) : MoonInfo :=
  let lunarDay := getMoonData_lunarDay date in
  getMoonData_bucket lunarDay.

(** *** Fishing index: the scoring blocks of [calculateConditions] *)

(** Barometric pressure, from [pressure] in inHg. *)
Definition pressureFactor (pressure : Q) : Factor :=
  let '(pressureScore, pressureStatus, pressureDetail) :=
    if (pressure >=? 30.0) && (pressure <=? 30.2) then
      (90%Z, positive, "Stable high pressure - ideal"%string)
    else if (pressure >=? 29.8) && (pressure <? 30.0) then
      (75%Z, positive, "Slightly falling - fish active"%string)
    else if (pressure >? 30.2) && (pressure <=? 30.5) then
      (60%Z, neutral, "High pressure - slower fishing"%string)
    else if pressure <? 29.8 then
      (40%Z, negative, "Low pressure - fish deep"%string)
    else
      (50%Z, neutral, "Very high - challenging"%string) in
  {| factorName := "Barometric Pressure";
     score := pressureScore;
     factorStatus := pressureStatus;
     detail := (JS.toFixed pressure 2 ++ " inHg - " ++ pressureDetail)%string |}.

Definition tempFactor (waterTemp : Q) : Factor :=
  let '(tempScore, tempStatus, tempDetail) :=
    if (waterTemp >=? 65) && (waterTemp <=? 75) then
      (95%Z, positive, "Optimal range for bass"%string)
    else if (waterTemp >=? 55) && (waterTemp <? 65) then
      (70%Z, neutral, "Pre-spawn activity increasing"%string)
    else if (waterTemp >? 75) && (waterTemp <=? 85) then
      (65%Z, neutral, "Fish seeking cooler depths"%string)
    else if waterTemp <? 55 then
      (40%Z, negative, "Cold - slow metabolism"%string)
    else
      (35%Z, negative, "Very warm - fish stressed"%string) in
  {| factorName := "Water Temperature";
     score := tempScore;
     factorStatus := tempStatus;
     detail := (Number_toString waterTemp ++ "°F - " ++ tempDetail)%string |}.

Definition windFactor (wind : Q) : Factor :=
  let '(windScore, windStatus, windDetail) :=
    if (wind >=? 5) && (wind <=? 15) then
      (85%Z, positive, "Light chop - reduces visibility"%string)
    else if wind <? 5 then
      (60%Z, neutral, "Calm - fish more cautious"%string)
    else if (wind >? 15) && (wind <=? 25) then
      (55%Z, neutral, "Moderate - concentrate on windward"%string)
    else
      (30%Z, negative, "Too windy - difficult conditions"%string) in
  {| factorName := "Wind";
     score := windScore;
     factorStatus := windStatus;
     detail := (JS.string_of_Z (JS.Math_round wind) ++ " mph - " ++ windDetail)%string |}.

Definition moonFactor (moonPhase : MoonInfo) : Factor :=
  let '(moonScore, moonStatus) :=
    if (phase moonPhase =? "New Moon")%string || (phase moonPhase =? "Full Moon")%string then
      (90%Z, positive)
    else if (phase moonPhase =? "First Quarter")%string
            || (phase moonPhase =? "Last Quarter")%string then
      (70%Z, neutral)
    else
      (55%Z, neutral) in
  {| factorName := "Moon Phase";
     score := moonScore;
     factorStatus := moonStatus;
     detail := (icon moonPhase ++ " " ++ phase moonPhase)%string |}.

Definition cloudFactor (clouds : Q) : Factor :=
  let '(cloudScore, cloudStatus) :=
    if (clouds >=? 40) && (clouds <=? 70) then (85%Z, positive)
    else if clouds >? 70 then (70%Z, neutral)
    else (55%Z, neutral) in
  {| factorName := "Cloud Cover";
     score := cloudScore;
     factorStatus := cloudStatus;
     detail :=
       String.append (Number_toString clouds)
         (String.append "% - "
            (if (clouds >=? 40) && (clouds <=? 70) then "Ideal overcast"%string
             else if clouds >? 70 then "Heavy clouds"%string
             else "Clear skies"%string)) |}.

(** [factors.reduce((sum, f) => sum + f.score, 0)] *)
Definition sumScores (factors : list Factor) : Z :=
  fold_left (fun sum f => (sum + score f)%Z) factors 0%Z.

Definition ratingOf (overallScore : Z) : Rating :=
  if (overallScore >=? 80)%Z then Excellent
  else if (overallScore >=? 65)%Z then Good
  else if (overallScore >=? 50)%Z then Fair
  else Poor.

Definition speciesActivity (waterTemp clouds : Q) (overallScore : Z)
  : list Species :=
  [ {| speciesName := "Largemouth Bass";
       activity :=
         if (waterTemp >=? 60) && (waterTemp <=? 80) && (overallScore >=? 60)%Z then High
         else if (waterTemp >=? 50) && (waterTemp <=? 85) then Moderate
         else Low |};
    {| speciesName := "Crappie";
       activity :=
         if (waterTemp >=? 55) && (waterTemp <=? 70) then High
         else if (waterTemp >=? 45) && (waterTemp <=? 75) then Moderate
         else Low |};
    {| speciesName := "Catfish";
       activity :=
         if (waterTemp >=? 70) && (clouds >=? 50) then High
         else if waterTemp >=? 60 then Moderate
         else Low |};
    {| speciesName := "Bluegill";
       activity :=
         if (waterTemp >=? 65) && (waterTemp <=? 80) then High
         else if waterTemp >=? 55 then Moderate
         else Low |} ].

(** The block under the comment "Generate tips". *)
Definition generateTips (wind waterTemp pressure : Q) (moonPhase : MoonInfo)
    (clouds : Q) : list string :=
  let tips : list string := [] in
  let tips :=
    if (wind >=? 5) && (wind <=? 15)
    then push tips "Fish the windward shoreline where baitfish concentrate"%string
    else tips in
  let tips :=
    if (waterTemp >=? 65) && (waterTemp <=? 75)
    then push tips "Topwater lures effective in early morning"%string
    else tips in
  let tips :=
    if (pressure >=? 29.8) && (pressure <=? 30.0)
    then push tips "Falling pressure - fish feeding aggressively"%string
    else tips in
  let tips :=
    if (phase moonPhase =? "Full Moon")%string || (phase moonPhase =? "New Moon")%string
    then push tips "Major solunar period - extended feeding windows"%string
    else tips in
  let tips :=
    if clouds >=? 50
    then push tips "Overcast conditions favor shallow water fishing"%string
    else tips in
  let tips :=
    if (List.length tips =? 0)%nat
    then push tips "Fish structure and cover in deeper water"%string
    else tips in
  tips.

(** The value handed to [setConditions] on the success path, from the
    weather reading, the water temperature of the props and the two
    astronomical results. *)
Definition scoreConditions (current : CurrentWeather) (waterTemp : Q)
    (moonPhase : MoonInfo) (solunar : Solunar) : FishingConditions :=
  let factors : list Factor := [] in
  let pressure := pressure_msl current * 0.02953 in
  let factors := push factors (pressureFactor pressure) in
  let factors := push factors (tempFactor waterTemp) in
  let wind := wind_speed_10m current in
  let factors := push factors (windFactor wind) in
  let factors := push factors (moonFactor moonPhase) in
  let clouds := cloud_cover current in
  let factors := push factors (cloudFactor clouds) in
  let overallScore :=
    JS.Math_round
      (inject_Z (sumScores factors) / inject_Z (Z.of_nat (List.length factors))) in
  let rating := ratingOf overallScore in
  let targetSpecies := speciesActivity waterTemp clouds overallScore in
  let tips := generateTips wind waterTemp pressure moonPhase clouds in
  {| overallScore := overallScore;
     rating := rating;
     factors := factors;
     bestTime := nth 0 (major solunar) EmptyString;
     targetSpecies := targetSpecies;
     tips := tips |}.

(** The literal of the [catch] block. *)
Definition defaultConditions : FishingConditions :=
  {| overallScore := 60;
     rating := Fair;
     factors := [];
     bestTime := "6am-8am";
     targetSpecies :=
       [ {| speciesName := "Largemouth Bass"; activity := Moderate |};
         {| speciesName := "Crappie"; activity := Moderate |} ];
     tips := ["Check local conditions before heading out"%string] |}.

(** [conditions.tips.slice(0, 3)] in the rendered list of tips. *)
Definition shownTips (conditions : FishingConditions) : list string :=
  firstn 3 (tips conditions).

End Host.

(** ** The [FishActivityIndex] component: state, errors and the fetch *)

Inductive Error := NetworkError | SyntaxError | TypeError.

(** The three [useState] cells of the component. *)
Record State := {
  conditions : option FishingConditions;
  loading : bool;
  moonData : option MoonInfo
}.

(** The parsed reply: [null], or an object whose [current] member is
    present or not. *)
Inductive WeatherJson :=
| JsonNull
| JsonObject (current : option CurrentWeather).

(** What [fetch] resolves to: a body that [response.json()] parses, or
    one that it rejects. *)
Inductive Response :=
| BodyNotJson
| Body (weather : WeatherJson).

Inductive FetchOutcome :=
| Rejected
| Resolved (response : Response).

(** The surroundings of one run: what the upstream request does, and the
    two instants read by the two [new Date()] calls. *)
Record Env := {
  upstream : FetchOutcome;
  clock1 : Q;
  clock2 : Q
}.

Record FishActivityIndexProps := {
  propLat : Q;
  propLng : Q;
  propWaterTemp : option Q
}.

(** Computations that update the component state and may throw; the state
    reached before a throw is kept. *)
Module Eff.

Definition M (A : Type) : Type := State -> (Error + A) * State.

Definition ret {A : Type} (a : A) : M A := fun s => (inr a, s).

Definition bind {A B : Type} (m : M A) (k : A -> M B) : M B :=
  fun s =>
    match m s with
    | (inl e, s') => (inl e, s')
    | (inr a, s') => k a s'
    end.

Definition throw {A : Type} (e : Error) : M A := fun s => (inl e, s).

Definition try_catch {A : Type} (body : M A) (handler : Error -> M A) : M A :=
  fun s =>
    match body s with
    | (inl e, s') => handler e s'
    | (inr a, s') => (inr a, s')
    end.

Definition try_finally {A : Type} (body : M A) (final : M unit) : M A :=
  fun s =>
    let '(r, s') := body s in
    match final s' with
    | (inl e, s'') => (inl e, s'')
    | (inr _, s'') => (r, s'')
    end.

End Eff.

Declare Scope eff_scope.
Delimit Scope eff_scope with eff.
Notation "x <- m ;; k" := (Eff.bind m (fun x => k))
  (at level 61, m at next level, right associativity) : eff_scope.
Notation "m ;; k" := (Eff.bind m (fun _ => k))
  (at level 61, right associativity) : eff_scope.

Definition setConditions (c : FishingConditions) : Eff.M unit :=
  fun s => (inr tt, {| conditions := Some c; loading := loading s; moonData := moonData s |}).

Definition setLoading (b : bool) : Eff.M unit :=
  fun s => (inr tt, {| conditions := conditions s; loading := b; moonData := moonData s |}).

Definition setMoonData (m : MoonInfo) : Eff.M unit :=
  fun s => (inr tt, {| conditions := conditions s; loading := loading s; moonData := Some m |}).

(** [await fetch(url)] *)
Definition fetch (env : Env) : Eff.M Response :=
  match upstream env with
  | Rejected => Eff.throw NetworkError
  | Resolved response => Eff.ret response
  end.

(** [await response.json()] *)
Definition json (response : Response) : Eff.M WeatherJson :=
  match response with
  | BodyNotJson => Eff.throw SyntaxError
  | Body weather => Eff.ret weather
  end.

(** [weather.current]: reading a member of [null] throws. *)
Definition member_current (weather : WeatherJson) : Eff.M (option CurrentWeather) :=
  match weather with
  | JsonNull => Eff.throw TypeError
  | JsonObject current => Eff.ret current
  end.

(** The first member read on [current]: throws when [current] is absent. *)
Definition deref (current : option CurrentWeather) : Eff.M CurrentWeather :=
  match current with
  | None => Eff.throw TypeError
  | Some c => Eff.ret c
  end.

Section FishActivityIndex.

Variable tzOffsetMinutes : Z.
Variable Number_toString : Q -> string.
Variable props : FishActivityIndexProps.

Local Open Scope eff_scope.

(** The props are destructured as [{ lat, lng, waterTemp = 68 }]. *)
Definition calculateConditions (env : Env) : Eff.M unit :=
  let lat := propLat props in
  let waterTemp := match propWaterTemp props with Some t => t | None => 68 end in
  setLoading true ;;
  Eff.try_finally
    (Eff.try_catch
       (response <- fetch env ;;
        weather <- json response ;;
        current <- member_current weather ;;
        let moonPhase := getMoonPhase tzOffsetMinutes (clock1 env) in
        setMoonData moonPhase ;;
        let solunar := getSolunarPeriods tzOffsetMinutes (clock2 env) lat in
        current <- deref current ;;
        setConditions
          (scoreConditions Number_toString current waterTemp moonPhase solunar))
       (fun err => setConditions defaultConditions))
    (setLoading false).

End FishActivityIndex.

Definition initialState : State :=
  {| conditions := None; loading := true; moonData := None |}.


(** ** Weather codes (weather widget and recreation planner) *)

(** The icon components the weather widget draws. *)
Inductive Icon :=
  Sun | Cloud | CloudFog | CloudDrizzle | CloudRain | CloudSnow | CloudLightning.

Record WeatherInfo := {
  description : string;
  infoIcon : Icon
}.

(** The object literal [weatherMap] of [getWeatherInfo], key by key. *)
Definition weatherMap : list (Z * WeatherInfo) := [
  (0%Z, {| description := "Clear sky"; infoIcon := Sun |});
  (1%Z, {| description := "Mainly clear"; infoIcon := Sun |});
  (2%Z, {| description := "Partly cloudy"; infoIcon := Cloud |});
  (3%Z, {| description := "Overcast"; infoIcon := Cloud |});
  (45%Z, {| description := "Foggy"; infoIcon := CloudFog |});
  (48%Z, {| description := "Depositing rime fog"; infoIcon := CloudFog |});
  (51%Z, {| description := "Light drizzle"; infoIcon := CloudDrizzle |});
  (53%Z, {| description := "Moderate drizzle"; infoIcon := CloudDrizzle |});
  (55%Z, {| description := "Dense drizzle"; infoIcon := CloudDrizzle |});
  (61%Z, {| description := "Slight rain"; infoIcon := CloudRain |});
  (63%Z, {| description := "Moderate rain"; infoIcon := CloudRain |});
  (65%Z, {| description := "Heavy rain"; infoIcon := CloudRain |});
  (71%Z, {| description := "Slight snow"; infoIcon := CloudSnow |});
  (73%Z, {| description := "Moderate snow"; infoIcon := CloudSnow |});
  (75%Z, {| description := "Heavy snow"; infoIcon := CloudSnow |});
  (80%Z, {| description := "Slight rain showers"; infoIcon := CloudRain |});
  (81%Z, {| description := "Moderate rain showers"; infoIcon := CloudRain |});
  (82%Z, {| description := "Violent rain showers"; infoIcon := CloudRain |});
  (95%Z, {| description := "Thunderstorm"; infoIcon := CloudLightning |});
  (96%Z, {| description := "Thunderstorm with hail"; infoIcon := CloudLightning |});
  (99%Z, {| description := "Thunderstorm with heavy hail"; infoIcon := CloudLightning |})
].

Fixpoint assocZ {A : Type} (k : Z) (l : list (Z * A)) : option A :=
  match l with
  | [] => None
  | (k', v) :: rest => if (k =? k')%Z then Some v else assocZ k rest
  end.

(** [weatherMap[code]]: the member named by the text of [code]; only a
    whole number is the text of one of the keys. *)
Definition weatherMap_get (code : Q) : option WeatherInfo :=
  if Qeq_bool (inject_Z (Qfloor code)) code
  then assocZ (Qfloor code) weatherMap
  else None.

(** [getWeatherInfo] never reads its second argument. *)
Definition getWeatherInfo (code : Q) (isDay : bool) : WeatherInfo :=
  match weatherMap_get code with
  | Some info => info
  | None => {| description := "Unknown"; infoIcon := Cloud |}
  end.

Definition getWeatherDescription (code : Q) : string :=
  if Qeq_bool code 0 then "Clear"
  else if code <=? 3 then "Partly Cloudy"
  else if code <=? 48 then "Foggy"
  else if code <=? 57 then "Drizzle"
  else if code <=? 67 then "Rain"
  else if code <=? 77 then "Snow"
  else if code <=? 82 then "Showers"
  else if code <=? 99 then "Thunderstorms"
  else "Unknown".

(** ** Wind direction (weather widget) *)

Definition directions : list string :=
  ["N"; "NNE"; "NE"; "ENE"; "E"; "ESE"; "SE"; "SSE";
   "S"; "SSW"; "SW"; "WSW"; "W"; "WNW"; "NW"; "NNW"]%string.

(** [array[i]] for a whole number [i]: [None] stands for [undefined], the
    value of an index outside the array. *)
Definition index {A : Type} (l : list A) (i : Z) : option A :=
  if (i <? 0)%Z then None else nth_error l (Z.to_nat i).

Definition getWindDirection (degrees : Q) : option string :=
  let index_ := Z.rem (JS.Math_round (degrees / 22.5)) 16 in
  index directions index_.

(** ** The hourly forecast of the weather widget *)

Record HourlyBlock := {
  hourly_time : list string;
  hourly_temperature_2m : list Q;
  hourly_weather_code : list Q;
  hourly_precipitation_probability : list Q
}.

(** An entry of [hourlyData]; a member is [None] where the array of the
    reply has no such index. *)
Record HourlyForecast := {
  hfTime : option string;
  hfTemperature : option Q;
  hfWeatherCode : option Q;
  hfPrecipitationProbability : option Q
}.

Definition hourlyEntry (hourly : HourlyBlock) (i : Z) : HourlyForecast :=
  {| hfTime := index (hourly_time hourly) i;
     hfTemperature := index (hourly_temperature_2m hourly) i;
     hfWeatherCode := index (hourly_weather_code hourly) i;
     hfPrecipitationProbability := index (hourly_precipitation_probability hourly) i |}.

(** The [for] loop over [i], started at [i] with [hourlyData] holding
    [acc]; [fuel] bounds the number of turns. *)
Fixpoint hourlyLoop (fuel : nat) (hourly : HourlyBlock) (currentHour i : Z)
    (acc : list HourlyForecast) : list HourlyForecast :=
  match fuel with
  | O => acc
  | S fuel' =>
      if (i <? currentHour + 12)%Z && (i <? 24)%Z
      then hourlyLoop fuel' hourly currentHour (i + 1)%Z (push acc (hourlyEntry hourly i))
      else acc
  end.

(** The list handed to [setHourlyForecast]; the guard [i < currentHour +
    12] ends the loop within twelve turns. *)
Definition hourlyData (hourly : HourlyBlock) (currentHour : Z) : list HourlyForecast :=
  hourlyLoop 12 hourly currentHour currentHour [].

(** ** The boat-ramp panel *)

Definition RampStatus_eqb (a b : RampStatus) : bool :=
  match a, b with
  | open, open | limited, limited | closed, closed => true
  | _, _ => false
  end.

(** [{ ...ramp, ...getRampStatus(ramp, currentElevation) }] for each ramp:
    the two records have no member in common. *)
Definition rampStatuses (currentElevation : Q) : list (BoatRamp * RampReport) :=
  map (fun ramp => (ramp, getRampStatus ramp currentElevation)) BOAT_RAMPS.

Definition openCount (currentElevation : Q) : nat :=
  List.length (filter (fun r => RampStatus_eqb (status (snd r)) open)
                 (rampStatuses currentElevation)).

Definition limitedCount (currentElevation : Q) : nat :=
  List.length (filter (fun r => RampStatus_eqb (status (snd r)) limited)
                 (rampStatuses currentElevation)).

Definition closedCount (currentElevation : Q) : nat :=
  List.length (filter (fun r => RampStatus_eqb (status (snd r)) closed)
                 (rampStatuses currentElevation)).

(** The guard of the low-water advisory. *)
Definition lowWaterAdvisory (currentElevation normalPoolElevation_ : Q) : bool :=
  currentElevation <? normalPoolElevation_ - 5.

(** [Math.min] and [Math.max] of two numbers, and of a first number and
    the members of a spread array. *)
Definition Math_min (x y : Q) : Q := if y <? x then y else x.
Definition Math_max (x y : Q) : Q := if x <? y then y else x.
Definition Math_min_list (x : Q) (rest : list Q) : Q := fold_left Math_min rest x.
Definition Math_max_list (x : Q) (rest : list Q) : Q := fold_left Math_max rest x.

(** ** Sun times of the recreation planner *)

(** [new Date(t)] keeps the whole milliseconds of [t]. *)
Definition Date_of (t : Q) : Z := JS.trunc t.

Record SunTimes := {
  dayLengthHours : Q;
  goldenMorningEnd : Z;
  goldenEveningStart : Z;
  blueMorningStart : Z;
  blueMorningEnd : Z;
  blueEveningStart : Z;
  blueEveningEnd : Z;
  solarNoon : Z
}.

(** The instants [fetchData] derives from the time values of [sunrise] and
    [sunset], before they are formatted. *)
Definition sunTimes (sunrise sunset : Z) : SunTimes :=
  let dayLengthMs := (sunset - sunrise)%Z in
  let dayLengthHours := inject_Z dayLengthMs / 1000 / 60 / 60 in
  {| dayLengthHours := dayLengthHours;
     goldenMorningEnd := (sunrise + 60 * 60 * 1000)%Z;
     goldenEveningStart := (sunset - 60 * 60 * 1000)%Z;
     blueMorningStart := (sunrise - 40 * 60 * 1000)%Z;
     blueMorningEnd := (sunrise - 20 * 60 * 1000)%Z;
     blueEveningStart := (sunset + 20 * 60 * 1000)%Z;
     blueEveningEnd := (sunset + 40 * 60 * 1000)%Z;
     solarNoon := Date_of (inject_Z sunrise + inject_Z dayLengthMs / 2) |}.

(** ** Rating order *)

Definition ratingRank (r : Rating) : Z :=
  match r with
  | Poor => 0
  | Fair => 1
  | Good => 2
  | Excellent => 3
  end%Z.

Definition statusRank (s : RampStatus) : Z :=
  match s with
  | closed => 0
  | limited => 1
  | open => 2
  end%Z.

(** ** The water-level panel (USGS readings) *)

Inductive LevelStatus := levelNormal | levelElevated | levelLow.

Inductive Trend := rising | falling | stable.

(** A member of the [value] array of the reply: [readingValue] is the
    number [parseFloat] reads from its [value] text. *)
Record Reading := {
  readingValue : Q;
  readingDateTime : string
}.

Record WaterLevelData := {
  levelValue : Q;
  levelDateTime : string;
  levelStatus : LevelStatus;
  levelTrend : Trend;
  change24h : Q
}.

(** The object the [try] block hands to [setWaterData] from the readings
    of the reply; [None] for an empty array, where reading a member of
    [latestValue] throws and the [catch] block of the variant takes
    over. *)
Definition waterLevelOf (normalPool : Q) (values : list Reading)
  : option WaterLevelData :=
  match values with
  | [] => None
  | first :: _ =>
      let latestValue := last values first in
      let previousValue :=
        if (1 <? Z.of_nat (List.length values))%Z then first else latestValue in
      let currentLevel := readingValue latestValue in
      let previousLevel := readingValue previousValue in
      let change := currentLevel - previousLevel in
      Some {| levelValue := currentLevel;
              levelDateTime := readingDateTime latestValue;
              levelStatus :=
                if currentLevel >? normalPool + 5 then levelElevated
                else if currentLevel <? normalPool - 10 then levelLow
                else levelNormal;
              levelTrend :=
                if change >? 0.1 then rising
                else if change <? - 0.1 then falling
                else stable;
              change24h := change |}
  end.

(** [waterData] and [error] at the end of a run of the proxy variant on a
    reply that carries the array [values]: its [catch] block stores [null]
    and the message of the error, [message] being the text the host gives
    the [TypeError]. *)
Definition proxyWaterData (normalPool : Q) (values : list Reading) (message : string)
  : option WaterLevelData * option string :=
  match waterLevelOf normalPool values with
  | Some w => (Some w, None)
  | None => (None, Some message)
  end.

(** The simulated reading of the [catch] block of the direct variant of
    the panel; [random1] and [random2] are the two results of
    [Math.random()], [now] the text of the current instant. *)
Definition simulatedWaterLevel (normalPool random1 random2 : Q) (now : string)
  : WaterLevelData :=
  let simulatedLevel := 598.42 + (random1 * 0.5 - 0.25) in
  let change := random2 * 0.4 - 0.2 in
  {| levelValue := simulatedLevel;
     levelDateTime := now;
     levelStatus :=
       if simulatedLevel >? normalPool then levelElevated
       else if simulatedLevel <? normalPool - 5 then levelLow
       else levelNormal;
     levelTrend :=
       if change >? 0.05 then rising
       else if change <? - 0.05 then falling
       else stable;
     change24h := change |}.

(** [waterData] and [error] at the end of a run of the direct variant on a
    reply that carries the array [values]: its [catch] block stores the
    simulated reading and no error. *)
Definition directWaterData (normalPool : Q) (values : list Reading)
    (random1 random2 : Q) (now : string)
  : option WaterLevelData * option string :=
  match waterLevelOf normalPool values with
  | Some w => (Some w, None)
  | None => (Some (simulatedWaterLevel normalPool random1 random2 now), None)
  end.

(** ** The water-level chart *)

Record ChartStats := {
  statMin : Q;
  statMax : Q;
  statAvg : Q;
  statCurrent : Q;
  statChange : Q
}.

(** [values.filter((_, idx) => idx % sampleRate === 0)] *)
Definition sampleRate (n : nat) : Z :=
  Z.max 1 (JS.Math_floor (inject_Z (Z.of_nat n) / 100)).

Definition sampleValues {A : Type} (values : list A) : list A :=
  let rate := sampleRate (List.length values) in
  map snd
    (filter (fun p => (Z.rem (Z.of_nat (fst p)) rate =? 0)%Z)
       (combine (seq 0 (List.length values)) values)).

(** The statistics of the sampled values; [None] for no value at all,
    where the source gets infinities and not-a-number.  The minimum, the
    maximum and the current value are picked among the values; the average
    and the change are computed, and the host rounds every sum, quotient
    and difference of its doubles: [add], [div] and [sub] stand for these
    three operations, of which nothing is assumed. *)
Definition chartStats (add div sub : Q -> Q -> Q) (numericValues : list Q)
  : option ChartStats :=
  match numericValues with
  | [] => None
  | first :: rest =>
      let min := Math_min_list first rest in
      let max := Math_max_list first rest in
      let avg := div (fold_left add numericValues 0)
                     (inject_Z (Z.of_nat (List.length numericValues))) in
      let current := last numericValues first in
      Some {| statMin := min; statMax := max; statAvg := avg;
              statCurrent := current; statChange := sub current first |}
  end.

(** The geometry of [renderChart]. *)
Definition chartWidth : Q := 400 - 40 - 10.
Definition chartHeight : Q := 120 - 10 - 20.

(** [Math.min(...values, normalPoolElevation - 5)] and
    [Math.max(...values, floodStageElevation)]: the least and the greatest
    of the same numbers, in whatever order they are given. *)
Definition chartMinVal (values : list Q) (normalPool : Q) : Q :=
  Math_min_list (normalPool - 5) values.

Definition chartMaxVal (values : list Q) (floodStage : Q) : Q :=
  Math_max_list floodStage values.

(** [maxVal - minVal || 1] *)
Definition chartRange (values : list Q) (normalPool floodStage : Q) : Q :=
  let r := chartMaxVal values floodStage - chartMinVal values normalPool in
  if Qeq_bool r 0 then 1 else r.

Definition yScale (values : list Q) (normalPool floodStage : Q) (val : Q) : Q :=
  10 + chartHeight
  - ((val - chartMinVal values normalPool) / chartRange values normalPool floodStage)
    * chartHeight.

(** The guard of the flood-stage line: [floodStageY >= padding.top]. *)
Definition floodLineShown (values : list Q) (normalPool floodStage : Q) : bool :=
  yScale values normalPool floodStage floodStage >=? 10.

(** ** Lake boundary: closing and merging rings *)

Definition Point : Type := (Q * Q)%type.

Definition tolerance : Q := 0.0001.

(** The test on two ring ends: both coordinates closer than the
    tolerance. *)
Definition near (p q : Point) : bool :=
  (JS.Math_abs (fst p - fst q) <? tolerance)
  && (JS.Math_abs (snd p - snd q) <? tolerance).

(** "Close the ring": the first point is appended unless the last point
    already has its two coordinates. *)
Definition closeRing (ring : list Point) : list Point :=
  match ring with
  | [] => []
  | first :: _ =>
      let last_ := last ring first in
      if negb (Qeq_bool (fst first) (fst last_))
         || negb (Qeq_bool (snd first) (snd last_))
      then ring ++ [first]
      else ring
  end.

(** One run of the [for] loop of [mergeRings] over [remaining], which is
    [before ++ rest] with the rings of [before] already passed over. *)
Inductive Pass :=
| Joined (merged : list Point) (remaining : list (list Point))
| Unchanged
| Thrown.

Fixpoint mergePass (merged : list Point) (before rest : list (list Point)) : Pass :=
  match rest with
  | [] => Unchanged
  | ring :: after =>
      match merged, ring with
      | mergedStart :: _, ringStart :: _ =>
          let mergedEnd := last merged mergedStart in
          let ringEnd := last ring ringStart in
          if near mergedEnd ringStart then
            Joined (merged ++ tl ring) (before ++ after)
          else if near mergedStart ringEnd then
            Joined (removelast ring ++ merged) (before ++ after)
          else if near mergedEnd ringEnd then
            Joined (merged ++ tl (rev ring)) (before ++ after)
          else if near mergedStart ringStart then
            Joined (removelast (rev ring) ++ merged) (before ++ after)
          else mergePass merged (before ++ [ring]) after
      | _, _ => Thrown
      end
  end.

(** The [while] loop: a pass that joins a ring is followed by another, a
    pass that joins none ends the loop; [None] when a pass throws.  Every
    joining pass takes a ring away, so a fuel of the number of remaining
    rings is never used up. *)
Fixpoint mergeLoop (fuel : nat) (merged : list Point)
    (remaining : list (list Point)) : option (list Point) :=
  match remaining with
  | [] => Some merged
  | _ :: _ =>
      match fuel with
      | O => Some merged
      | S fuel' =>
          match mergePass merged [] remaining with
          | Joined merged' remaining' => mergeLoop fuel' merged' remaining'
          | Unchanged => Some merged
          | Thrown => None
          end
      end
  end.

Definition mergeRings (rings : list (list Point)) : option (list Point) :=
  match rings with
  | [] => Some []
  | [ring] => Some ring
  | first :: rest =>
      match mergeLoop (List.length rest) first rest with
      | Some merged => Some (closeRing merged)
      | None => None
      end
  end.

(** A ring is closed when it ends on the coordinates it starts on. *)
Definition closed_ring (ring : list Point) : Prop :=
  match ring with
  | [] => True
  | first :: _ =>
      fst first == fst (last ring first) /\ snd first == snd (last ring first)
  end.

Definition total_points (rings : list (list Point)) : nat :=
  fold_right (fun ring n => (List.length ring + n)%nat) 0%nat rings.


(** * Properties *)

(** ** Comparisons, rounding and text of numbers *)

Lemma leb_iff (x y : Q) : (x <=? y) = true <-> x <= y.
Proof. unfold JS.leb. apply Qle_bool_iff. Qed.

Lemma ltb_iff (x y : Q) : (x <? y) = true <-> x < y.
Proof.
  unfold JS.ltb. rewrite negb_true_iff, <- not_true_iff_false, Qle_bool_iff.
  split; [apply Qnot_le_lt | apply Qlt_not_le].
Qed.

Lemma geb_iff (x y : Q) : (x >=? y) = true <-> y <= x.
Proof. unfold JS.geb. apply leb_iff. Qed.

Lemma gtb_iff (x y : Q) : (x >? y) = true <-> y < x.
Proof. unfold JS.gtb. apply ltb_iff. Qed.

Lemma leb_false_iff (x y : Q) : (x <=? y) = false <-> y < x.
Proof.
  rewrite <- not_true_iff_false, leb_iff.
  split; [apply Qnot_le_lt | apply Qlt_not_le].
Qed.

Lemma ltb_false_iff (x y : Q) : (x <? y) = false <-> y <= x.
Proof.
  rewrite <- not_true_iff_false, ltb_iff.
  split; [apply Qnot_lt_le | apply Qle_not_lt].
Qed.

Lemma geb_false_iff (x y : Q) : (x >=? y) = false <-> x < y.
Proof. unfold JS.geb. apply leb_false_iff. Qed.

Lemma gtb_false_iff (x y : Q) : (x >? y) = false <-> x <= y.
Proof. unfold JS.gtb. apply ltb_false_iff. Qed.

#[global] Instance leb_Proper : Proper (Qeq ==> Qeq ==> eq) JS.leb.
Proof. intros a b Hab c d Hcd. unfold JS.leb. now rewrite Hab, Hcd. Qed.

#[global] Instance ltb_Proper : Proper (Qeq ==> Qeq ==> eq) JS.ltb.
Proof. intros a b Hab c d Hcd. unfold JS.ltb. now rewrite Hab, Hcd. Qed.

#[global] Instance geb_Proper : Proper (Qeq ==> Qeq ==> eq) JS.geb.
Proof. intros a b Hab c d Hcd. unfold JS.geb. now rewrite Hab, Hcd. Qed.

#[global] Instance gtb_Proper : Proper (Qeq ==> Qeq ==> eq) JS.gtb.
Proof. intros a b Hab c d Hcd. unfold JS.gtb. now rewrite Hab, Hcd. Qed.

#[global] Instance Math_round_Proper : Proper (Qeq ==> eq) JS.Math_round.
Proof. intros a b Hab. unfold JS.Math_round. now rewrite Hab. Qed.

#[global] Instance toFixed_Proper : Proper (Qeq ==> eq ==> eq) JS.toFixed.
Proof.
  intros a b Hab f g <-. unfold JS.toFixed. cbv zeta.
  rewrite (ltb_Proper a b Hab 0 0 (Qeq_refl 0)).
  assert (Hn : Qfloor ((if b <? 0 then - a else a) * inject_Z (10 ^ Z.of_nat f) + (1 # 2))
             = Qfloor ((if b <? 0 then - b else b) * inject_Z (10 ^ Z.of_nat f) + (1 # 2))).
  { apply Qfloor_comp. destruct (b <? 0); now rewrite Hab. }
  now rewrite Hn.
Qed.

(** Case analysis on every comparison of a goal, turning each outcome into
    the order fact it stands for. *)
Ltac js_case :=
  match goal with
  | |- context [JS.leb ?x ?y] =>
      let H := fresh "Hc" in
      destruct (JS.leb x y) eqn:H;
      [apply leb_iff in H | apply leb_false_iff in H]
  | |- context [JS.ltb ?x ?y] =>
      let H := fresh "Hc" in
      destruct (JS.ltb x y) eqn:H;
      [apply ltb_iff in H | apply ltb_false_iff in H]
  | |- context [JS.geb ?x ?y] =>
      let H := fresh "Hc" in
      destruct (JS.geb x y) eqn:H;
      [apply geb_iff in H | apply geb_false_iff in H]
  | |- context [JS.gtb ?x ?y] =>
      let H := fresh "Hc" in
      destruct (JS.gtb x y) eqn:H;
      [apply gtb_iff in H | apply gtb_false_iff in H]
  end.

(** [Math.round] returns the integer nearest to its argument. *)
Lemma Math_round_nearest (x : Q) :
  x - (1 # 2) < inject_Z (JS.Math_round x) <= x + (1 # 2).
Proof.
  unfold JS.Math_round. split.
  - pose proof (Qlt_floor (x + (1 # 2))) as H.
    rewrite inject_Z_plus in H. change (inject_Z 1) with 1 in H.
    set (n := inject_Z (Qfloor (x + (1 # 2)))) in *. lra.
  - apply Qfloor_le.
Qed.

Lemma Math_round_inject_Z (z : Z) : JS.Math_round (inject_Z z) = z.
Proof.
  unfold JS.Math_round.
  pose proof (Qfloor_le (inject_Z z + (1 # 2))) as Hle.
  pose proof (Qlt_floor (inject_Z z + (1 # 2))) as Hlt.
  set (n := Qfloor (inject_Z z + (1 # 2))) in *.
  rewrite inject_Z_plus in Hlt. change (inject_Z 1) with 1 in Hlt.
  assert (H1 : inject_Z n < inject_Z (z + 1)).
  { rewrite inject_Z_plus. change (inject_Z 1) with 1.
    set (qn := inject_Z n) in *. set (qz := inject_Z z) in *. lra. }
  assert (H2 : inject_Z z < inject_Z (n + 1)).
  { rewrite inject_Z_plus. change (inject_Z 1) with 1.
    set (qn := inject_Z n) in *. set (qz := inject_Z z) in *. lra. }
  rewrite <- Zlt_Qlt in H1, H2. lia.
Qed.

(** ** Flood impact *)

Lemma floodImpactOf_difference (lake : LakeData) (e : Q) :
  difference (floodImpactOf lake e) = e - normalPoolElevation lake.
Proof. reflexivity. Qed.

(** C2, as the specification words it: the evacuation zone at elevation
    610 is not 1; the four values the claim lists do not hold together. *)
Lemma calculateFloodImpact_610_not_as_claimed :
  evacuationZone (calculateFloodImpact 610) <> 1%Z /\
  ~ (difference (calculateFloodImpact 610) == 11 /\
     additionalAcres (calculateFloodImpact 610) = 1980%Z /\
     impactedStructures (calculateFloodImpact 610) = 72%Z /\
     evacuationZone (calculateFloodImpact 610) = 1%Z).
Proof.
  assert (H : evacuationZone (calculateFloodImpact 610) = 2%Z) by reflexivity.
  split.
  - rewrite H. discriminate.
  - intros (_ & _ & _ & H1). rewrite H in H1. discriminate.
Qed.

(** C2, amended: with the normal pool at 599, elevation 610 gives
    difference 11, 1980 additional acres, 72 impacted structures and an
    evacuation zone of 2: (11 - 8) * 0.5 = 1.5, and [Math.round] takes the
    tie upwards. *)
Theorem calculateFloodImpact_610 :
  normalPoolElevation SARDIS_LAKE_DATA = 599 /\
  (11 - 8) * 0.5 == 1.5 /\
  JS.Math_round 1.5 = 2%Z /\
  difference (calculateFloodImpact 610) == 11 /\
  additionalAcres (calculateFloodImpact 610) = 1980%Z /\
  impactedStructures (calculateFloodImpact 610) = 72%Z /\
  evacuationZone (calculateFloodImpact 610) = 2%Z.
Proof. repeat split; reflexivity. Qed.

(** At the 5 ft threshold no structure is counted yet. *)
Example calculateFloodImpact_604 :
  calculateFloodImpact 604 =
    {| additionalAcres := 900; impactedStructures := 0;
       evacuationZone := 0; difference := 5 |}.
Proof. reflexivity. Qed.

(** C3: at or below the normal pool elevation the flood impact has no
    additional acres, no impacted structures and no evacuation zone. *)
Theorem floodImpactOf_at_or_below_normal_pool (lake : LakeData) (e : Q) :
  e <= normalPoolElevation lake ->
  additionalAcres (floodImpactOf lake e) = 0%Z /\
  impactedStructures (floodImpactOf lake e) = 0%Z /\
  evacuationZone (floodImpactOf lake e) = 0%Z.
Proof.
  intros He. unfold floodImpactOf. cbn [additionalAcres impactedStructures evacuationZone].
  assert (H0 : (e - normalPoolElevation lake >? 0) = false)
    by (apply gtb_false_iff; lra).
  assert (H5 : (e - normalPoolElevation lake >? 5) = false)
    by (apply gtb_false_iff; lra).
  assert (H8 : (e - normalPoolElevation lake >? 8) = false)
    by (apply gtb_false_iff; lra).
  rewrite H0, H5, H8. repeat split.
Qed.

(** The lake at elevation 590, nine feet below its normal pool. *)
Lemma floodImpactOf_at_or_below_normal_pool_witness :
  590 <= normalPoolElevation SARDIS_LAKE_DATA /\
  additionalAcres (calculateFloodImpact 590) = 0%Z /\
  impactedStructures (calculateFloodImpact 590) = 0%Z /\
  evacuationZone (calculateFloodImpact 590) = 0%Z.
Proof.
  split.
  - simpl. lra.
  - apply (floodImpactOf_at_or_below_normal_pool SARDIS_LAKE_DATA 590).
    simpl. lra.
Defined.

(** ** Boat ramps *)

(** The report depends on the ramp through its two elevations only. *)
Lemma getRampStatus_elevations (r1 r2 : BoatRamp) (e : Q) :
  minElevation r1 == minElevation r2 ->
  optimalElevation r1 == optimalElevation r2 ->
  getRampStatus r1 e = getRampStatus r2 e.
Proof.
  intros Hmin Hopt. unfold getRampStatus. cbv zeta.
  rewrite (geb_Proper e e (Qeq_refl e) _ _ Hopt).
  rewrite (geb_Proper e e (Qeq_refl e) _ _ Hmin).
  assert (H3 : minElevation r1 + 3 == minElevation r2 + 3) by now rewrite Hmin.
  rewrite (geb_Proper e e (Qeq_refl e) _ _ H3).
  assert (Hd : e - minElevation r1 == e - minElevation r2) by now rewrite Hmin.
  rewrite (toFixed_Proper _ _ Hd 1%nat 1%nat eq_refl).
  assert (Ha : JS.Math_abs (e - minElevation r1) == JS.Math_abs (e - minElevation r2))
    by (unfold JS.Math_abs; now rewrite Hd).
  rewrite (toFixed_Proper _ _ Ha 1%nat 1%nat eq_refl).
  reflexivity.
Qed.

(** The four bands of [getRampStatus], by the order facts that select them. *)
Lemma getRampStatus_status (ramp : BoatRamp) (e : Q) :
  (status (getRampStatus ramp e) = open <->
     optimalElevation ramp <= e \/ minElevation ramp + 3 <= e) /\
  (status (getRampStatus ramp e) = limited <->
     e < optimalElevation ramp /\ minElevation ramp <= e < minElevation ramp + 3) /\
  (status (getRampStatus ramp e) = closed <->
     e < optimalElevation ramp /\ e < minElevation ramp).
Proof.
  unfold getRampStatus. cbv zeta.
  repeat js_case; cbn [status];
    repeat split; intros; try discriminate; try tauto; try lra;
    try (exfalso; intuition lra).
Qed.

(** C5: a ramp with minimum elevation 590 and optimal elevation 595 is
    open to all vessels at 596, limited to small craft at 592 with the
    message giving 2.0 ft above the minimum, and closed with nothing
    launchable at 588 with the message giving 2.0 ft below the minimum. *)
Theorem getRampStatus_590_595 (ramp : BoatRamp) :
  minElevation ramp == 590 ->
  optimalElevation ramp == 595 ->
  getRampStatus ramp 596 =
    {| status := open;
       message := "Fully operational - optimal conditions";
       launchable := ["All vessels"; "Large boats"; "Pontoons"; "PWC"]%string |} /\
  getRampStatus ramp 592 =
    {| status := limited;
       message := "Limited access - 2.0 ft above minimum";
       launchable := ["Small boats"; "Kayaks"; "Canoes"; "PWC"]%string |} /\
  getRampStatus ramp 588 =
    {| status := closed;
       message := "Closed - water 2.0 ft below minimum";
       launchable := [] |} /\
  JS.toFixed (592 - minElevation ramp) 1 = "2.0"%string /\
  JS.toFixed (JS.Math_abs (588 - minElevation ramp)) 1 = "2.0"%string.
Proof.
  intros Hmin Hopt.
  set (r0 := {| id := id ramp; name := name ramp; location := location ramp;
                minElevation := 590; optimalElevation := 595;
                coordinates := coordinates ramp; amenities := amenities ramp;
                parkingSpaces := parkingSpaces ramp; phone := phone ramp |}).
  assert (E : forall e, getRampStatus ramp e = getRampStatus r0 e)
    by (intros e; apply getRampStatus_elevations; assumption).
  rewrite !E.
  assert (Hd : 592 - minElevation ramp == 2) by (rewrite Hmin; reflexivity).
  assert (Ha : JS.Math_abs (588 - minElevation ramp) == 2)
    by (unfold JS.Math_abs; rewrite Hmin; reflexivity).
  rewrite (toFixed_Proper _ _ Hd 1%nat 1%nat eq_refl).
  rewrite (toFixed_Proper _ _ Ha 1%nat 1%nat eq_refl).
  repeat split.
Qed.

(** The first ramp of [BOAT_RAMPS] has these two elevations. *)
Lemma getRampStatus_590_595_witness :
  let ramp := nth 0 BOAT_RAMPS
                {| id := ""; name := ""; location := ""; minElevation := 0;
                   optimalElevation := 0; coordinates := {| lat := 0; lng := 0 |};
                   amenities := []; parkingSpaces := 0; phone := None |} in
  id ramp = "potato-hills"%string /\
  status (getRampStatus ramp 596) = open /\
  status (getRampStatus ramp 592) = limited /\
  message (getRampStatus ramp 592) = "Limited access - 2.0 ft above minimum"%string /\
  status (getRampStatus ramp 588) = closed /\
  launchable (getRampStatus ramp 588) = [].
Proof.
  intros ramp.
  destruct (getRampStatus_590_595 ramp) as (H1 & H2 & H3 & _);
    [reflexivity | reflexivity |].
  rewrite H1, H2, H3. repeat split.
Defined.

(** ** Recreation-day rating *)

(** The raw score stays between -25 and 115. *)
Lemma recreationScore_range (day : DayInput) :
  (-25 <= recreationScore day <= 115)%Z.
Proof.
  unfold recreationScore. cbv zeta.
  repeat js_case; cbn [orb andb]; lia.
Qed.

(** The score is the base 100 plus the adjustment of each block: the
    blocks are independent of one another. *)
Lemma recreationScore_blocks (day : DayInput) :
  recreationScore day =
  (100 + temperatureAdjustment day + precipitationAdjustment day
   + windAdjustment day + weatherCodeAdjustment day)%Z.
Proof.
  unfold recreationScore, temperatureAdjustment, precipitationAdjustment,
    windAdjustment, weatherCodeAdjustment. cbv zeta.
  repeat js_case; cbn [orb andb]; lia.
Qed.

(** C6: the day with high 78, precipitation probability 10, wind 8 and
    weather code 1 scores 100 + 10 + 5 = 115 (temperature bonus 10, clear
    sky bonus 5, no penalty) and is rated Excellent; the raw score, which
    may pass 100 or fall below 0, is never clamped: the rating of every
    day is read off the three thresholds 80, 60 and 40. *)
Theorem rateDayForRecreation_sample :
  let day := {| tempHigh := 78; precipProbability := 10;
                windSpeed := 8; weatherCode := 1 |} in
  let worst := {| tempHigh := 100; precipProbability := 80;
                  windSpeed := 30; weatherCode := 95 |} in
  temperatureAdjustment day = 10%Z /\
  precipitationAdjustment day = 0%Z /\
  windAdjustment day = 0%Z /\
  weatherCodeAdjustment day = 5%Z /\
  recreationScore day = 115%Z /\
  rateDayForRecreation day = Excellent /\
  recreationScore worst = (-25)%Z /\
  rateDayForRecreation worst = Poor /\
  forall d : DayInput,
    (rateDayForRecreation d = Excellent <-> (80 <= recreationScore d)%Z) /\
    (rateDayForRecreation d = Good <-> (60 <= recreationScore d < 80)%Z) /\
    (rateDayForRecreation d = Fair <-> (40 <= recreationScore d < 60)%Z) /\
    (rateDayForRecreation d = Poor <-> (recreationScore d < 40)%Z).
Proof.
  cbv zeta. repeat (split; [reflexivity |]).
  intros d. unfold rateDayForRecreation. cbv zeta.
  destruct (Z.geb_spec (recreationScore d) 80);
    [| destruct (Z.geb_spec (recreationScore d) 60);
       [| destruct (Z.geb_spec (recreationScore d) 40)]];
    repeat split; intros; try discriminate; try lia; try reflexivity.
Qed.

(** ** The remainder operator *)

#[global] Instance trunc_Proper : Proper (Qeq ==> eq) JS.trunc.
Proof.
  intros a b Hab. unfold JS.trunc.
  rewrite (leb_Proper 0 0 (Qeq_refl 0) a b Hab).
  destruct (0 <=? b); [apply Qfloor_comp | apply Qceiling_comp]; exact Hab.
Qed.

#[global] Instance rem_Proper : Proper (Qeq ==> Qeq ==> Qeq) JS.rem.
Proof.
  intros a b Hab c d Hcd. unfold JS.rem.
  assert (Ht : JS.trunc (a / c) = JS.trunc (b / d))
    by (apply trunc_Proper; now rewrite Hab, Hcd).
  rewrite Ht, Hab, Hcd. reflexivity.
Qed.

(** The fractional part left by [trunc]: in [0, 1) for a quotient that is
    not negative, in (-1, 0] for one that is not positive. *)
Lemma trunc_frac_nonneg (q : Q) :
  0 <= q -> 0 <= q - inject_Z (JS.trunc q) < 1.
Proof.
  intros Hq. unfold JS.trunc.
  apply leb_iff in Hq. rewrite Hq.
  pose proof (Qfloor_le q) as H1. pose proof (Qlt_floor q) as H2.
  rewrite inject_Z_plus in H2. change (inject_Z 1) with 1 in H2.
  set (n := inject_Z (Qfloor q)) in *. lra.
Qed.

Lemma trunc_frac_nonpos (q : Q) :
  q <= 0 -> -(1) < q - inject_Z (JS.trunc q) <= 0.
Proof.
  intros Hq. unfold JS.trunc.
  destruct (0 <=? q) eqn:H0.
  - apply leb_iff in H0. assert (Hz : q == 0) by lra.
    rewrite (Qfloor_comp _ _ Hz). change (Qfloor 0) with 0%Z.
    change (inject_Z 0) with 0. lra.
  - pose proof (Qle_ceiling q) as H1. pose proof (Qceiling_lt q) as H2.
    unfold Z.sub in H2. rewrite inject_Z_plus, inject_Z_opp in H2.
    change (inject_Z 1) with 1 in H2.
    set (n := inject_Z (Qceiling q)) in *. lra.
Qed.

(** [x % y] is [y] times the fractional part of [x / y]. *)
Lemma rem_frac (x y : Q) :
  ~ y == 0 -> JS.rem x y == y * (x / y - inject_Z (JS.trunc (x / y))).
Proof. intros Hy. unfold JS.rem. field. exact Hy. Qed.

Lemma rem_nonneg (x y : Q) :
  0 <= x -> 0 < y -> 0 <= JS.rem x y < y.
Proof.
  intros Hx Hy.
  assert (Hy0 : ~ y == 0) by lra.
  assert (Hq : 0 <= x / y) by (apply Qle_shift_div_l; lra).
  pose proof (trunc_frac_nonneg _ Hq) as [F0 F1].
  rewrite (rem_frac x y Hy0).
  set (f := x / y - inject_Z (JS.trunc (x / y))) in *.
  split.
  - apply Qmult_le_0_compat; lra.
  - setoid_replace y with (y * 1) at 2 by ring.
    apply Qmult_lt_l; assumption.
Qed.

Lemma rem_nonpos (x y : Q) :
  x <= 0 -> 0 < y -> - y < JS.rem x y <= 0.
Proof.
  intros Hx Hy.
  assert (Hy0 : ~ y == 0) by lra.
  assert (Hq : x / y <= 0) by (apply Qle_shift_div_r; lra).
  pose proof (trunc_frac_nonpos _ Hq) as [F0 F1].
  rewrite (rem_frac x y Hy0).
  set (f := x / y - inject_Z (JS.trunc (x / y))) in *.
  split.
  - setoid_replace (- y) with (y * -(1)) by ring.
    apply Qmult_lt_l; assumption.
  - setoid_replace 0 with (y * 0) by ring.
    apply Qmult_le_l; assumption.
Qed.

Lemma rem_range (x y : Q) :
  0 < y -> - y < JS.rem x y < y.
Proof.
  intros Hy. destruct (Qlt_le_dec x 0) as [Hx | Hx].
  - pose proof (rem_nonpos x y (Qlt_le_weak _ _ Hx) Hy). lra.
  - pose proof (rem_nonneg x y Hx Hy). lra.
Qed.

(** Two values of [0, y) that differ by a whole multiple of [y] are the
    same. *)
Lemma residue_unique (y r1 r2 : Q) (k : Z) :
  0 < y -> 0 <= r1 < y -> 0 <= r2 < y ->
  r1 - r2 == y * inject_Z k -> r1 == r2.
Proof.
  intros Hy H1 H2 Hk.
  assert (Hlt : inject_Z k < inject_Z 1).
  { change (inject_Z 1) with 1.
    apply (Qmult_lt_l _ _ y Hy). rewrite <- Hk. lra. }
  assert (Hgt : inject_Z (-1) < inject_Z k).
  { change (inject_Z (-1)) with (-1 # 1).
    apply (Qmult_lt_l _ _ y Hy). rewrite <- Hk. lra. }
  rewrite <- Zlt_Qlt in Hlt, Hgt.
  assert (k = 0%Z) by lia. subst k.
  change (inject_Z 0) with 0 in Hk. lra.
Qed.

Lemma norm_range (x y : Q) : 0 < y -> 0 <= norm x y < y.
Proof.
  intros Hy. unfold norm. apply rem_nonneg; [| assumption].
  pose proof (rem_range x y Hy). lra.
Qed.

Lemma norm_congruent (x y : Q) :
  exists k : Z, norm x y == x - y * inject_Z k.
Proof.
  unfold norm.
  exists (JS.trunc (x / y) + JS.trunc ((JS.rem x y + y) / y) - 1)%Z.
  unfold Z.sub. rewrite !inject_Z_plus, inject_Z_opp. change (inject_Z 1) with 1.
  unfold JS.rem at 1.
  set (a := inject_Z (JS.trunc (x / y))).
  set (b := inject_Z (JS.trunc ((JS.rem x y + y) / y))).
  unfold JS.rem. fold a. ring.
Qed.

Lemma norm_periodic (x y : Q) : 0 < y -> norm (x + y) y == norm x y.
Proof.
  intros Hy.
  destruct (norm_congruent (x + y) y) as [k1 H1].
  destruct (norm_congruent x y) as [k2 H2].
  apply (residue_unique y _ _ (1 - k1 + k2)%Z Hy);
    try (apply norm_range; assumption).
  rewrite H1, H2. unfold Z.sub. rewrite !inject_Z_plus, inject_Z_opp.
  change (inject_Z 1) with 1. ring.
Qed.

(** ** Lunar day *)

Lemma newMoon_utc : newMoon 0 = 947182440000.
Proof. reflexivity. Qed.

Lemma getMoonData_lunarDay_norm (tz : Z) (date : Q) :
  getMoonData_lunarDay tz date =
  norm ((date - newMoon tz) / 1000 / 60 / 60 / 24) 29.53058867.
Proof. reflexivity. Qed.

(** The lunar day of [getMoonData] lies in [0, 29.53058867) at every
    instant, before the reference new moon as well as after it. *)
Lemma getMoonData_lunarDay_range (tz : Z) (date : Q) :
  0 <= getMoonData_lunarDay tz date < 29.53058867.
Proof. rewrite getMoonData_lunarDay_norm. apply norm_range. reflexivity. Qed.

(** From the reference new moon on, so does the lunar day of
    [getMoonPhase]. *)
Lemma getMoonPhase_lunarDay_after (tz : Z) (date : Q) :
  newMoon tz <= date ->
  0 <= getMoonPhase_lunarDay tz date < 29.53058867.
Proof.
  intros Hd. unfold getMoonPhase_lunarDay. cbv zeta.
  set (l := (date - newMoon tz) / 1000 / 60 / 60 / 24 / 29.53058867).
  assert (Hl : 0 <= l).
  { unfold l. repeat (apply Qle_shift_div_l; [reflexivity |]). lra. }
  pose proof (rem_nonneg l 1 Hl eq_refl) as [H0 H1].
  set (r := JS.rem l 1) in *. lra.
Qed.

(** Before it, the remainder keeps the sign of the elapsed time: the
    lunar day of [getMoonPhase] is negative or zero. *)
Lemma getMoonPhase_lunarDay_before (tz : Z) (date : Q) :
  date <= newMoon tz ->
  - 29.53058867 < getMoonPhase_lunarDay tz date <= 0.
Proof.
  intros Hd. unfold getMoonPhase_lunarDay. cbv zeta.
  set (l := (date - newMoon tz) / 1000 / 60 / 60 / 24 / 29.53058867).
  assert (Hl : l <= 0).
  { unfold l. repeat (apply Qle_shift_div_r; [reflexivity |]). lra. }
  pose proof (rem_nonpos l 1 Hl eq_refl) as [H0 H1].
  set (r := JS.rem l 1) in *. lra.
Qed.

(** Every instant up to the reference new moon is reported as a new moon
    by [getMoonPhase]. *)
Lemma getMoonPhase_before_epoch (tz : Z) (date : Q) :
  date <= newMoon tz ->
  getMoonPhase tz date = {| phase := "New Moon"; icon := "🌑"; illumination := 0 |}.
Proof.
  intros Hd. unfold getMoonPhase. cbv zeta.
  pose proof (getMoonPhase_lunarDay_before tz date Hd) as [_ H].
  unfold getMoonPhase_bucket.
  assert (Hb : (getMoonPhase_lunarDay tz date <? 1.85) = true)
    by (apply ltb_iff; lra).
  now rewrite Hb.
Qed.

(** The two conditional chains respect equality of rationals. *)
Ltac ltb_to a b H :=
  repeat match goal with
  | |- context [JS.ltb a ?c] => rewrite (ltb_Proper a b H c c (Qeq_refl c))
  end.

Lemma getMoonPhase_bucket_ext (a b : Q) :
  a == b -> getMoonPhase_bucket a = getMoonPhase_bucket b.
Proof. intros H. unfold getMoonPhase_bucket. ltb_to a b H. reflexivity. Qed.

Lemma getMoonData_bucket_ext (a b : Q) :
  a == b -> getMoonData_bucket a = getMoonData_bucket b.
Proof.
  intros H. unfold getMoonData_bucket. ltb_to a b H.
  rewrite (Math_round_Proper ((a - 1.85) / 3.68 * 25) ((b - 1.85) / 3.68 * 25))
    by now rewrite H.
  rewrite (Math_round_Proper ((a - 9.22) / 3.69 * 25) ((b - 9.22) / 3.69 * 25))
    by now rewrite H.
  rewrite (Math_round_Proper ((a - 16.61) / 3.69 * 25) ((b - 16.61) / 3.69 * 25))
    by now rewrite H.
  rewrite (Math_round_Proper ((a - 23.99) / 3.69 * 25) ((b - 23.99) / 3.69 * 25))
    by now rewrite H.
  reflexivity.
Qed.

(** On one lunar day the two chains name the same phase. *)
Lemma bucket_phase_agree (a b : Q) :
  a == b -> phase (getMoonPhase_bucket a) = phase (getMoonData_bucket b).
Proof.
  intros H. rewrite (getMoonPhase_bucket_ext a b H).
  unfold getMoonPhase_bucket, getMoonData_bucket.
  repeat js_case; reflexivity.
Qed.

(** From the reference new moon on, the two lunar days coincide. *)
Lemma lunarDay_agree_after (tz : Z) (date : Q) :
  newMoon tz <= date ->
  getMoonPhase_lunarDay tz date == getMoonData_lunarDay tz date.
Proof.
  intros Hd.
  pose proof (getMoonPhase_lunarDay_after tz date Hd) as R1.
  pose proof (getMoonData_lunarDay_range tz date) as R2.
  rewrite getMoonData_lunarDay_norm in *.
  set (d := (date - newMoon tz) / 1000 / 60 / 60 / 24) in *.
  destruct (norm_congruent d 29.53058867) as [k Hk].
  apply (residue_unique 29.53058867 _ _
           (k - JS.trunc (d / 29.53058867 / 1))%Z eq_refl R1 R2).
  rewrite Hk. unfold getMoonPhase_lunarDay. cbv zeta. fold d.
  unfold JS.rem, Z.sub. rewrite inject_Z_plus, inject_Z_opp.
  set (t := inject_Z (JS.trunc (d / 29.53058867 / 1))).
  field.
Qed.

Lemma phase_agree_after (tz : Z) (date : Q) :
  newMoon tz <= date ->
  phase (getMoonPhase tz date) = phase (getMoonData tz date).
Proof.
  intros Hd. unfold getMoonPhase, getMoonData. cbv zeta.
  apply bucket_phase_agree, lunarDay_agree_after, Hd.
Qed.

(** ** Period of the moon phase

    29.53058867 days are 2551442861.088 milliseconds. *)

Lemma synodic_month_ms : 29.53058867 * 24 * 60 * 60 * 1000 == 2551442861.088.
Proof. reflexivity. Qed.

Lemma getMoonData_lunarDay_periodic (tz : Z) (date : Q) :
  getMoonData_lunarDay tz (date + 2551442861.088) == getMoonData_lunarDay tz date.
Proof.
  rewrite !getMoonData_lunarDay_norm.
  rewrite <- (norm_periodic ((date - newMoon tz) / 1000 / 60 / 60 / 24) 29.53058867 eq_refl).
  unfold norm. apply rem_Proper; [| reflexivity].
  apply Qplus_comp; [| reflexivity].
  apply rem_Proper; [| reflexivity].
  field.
Qed.

(** In the exact arithmetic of this development, [getMoonData] has period
    29.53058867 days, in phase, illumination and icon, at every rational
    instant.  The period is not a whole number of milliseconds: no two
    [Date] values lie one period apart. *)
Lemma getMoonData_periodic (tz : Z) (date : Q) :
  getMoonData tz (date + 2551442861.088) = getMoonData tz date.
Proof.
  unfold getMoonData. cbv zeta.
  apply getMoonData_bucket_ext, getMoonData_lunarDay_periodic.
Qed.

(** [getMoonPhase] has that period from the reference new moon on. *)
Lemma getMoonPhase_periodic_after (tz : Z) (date : Q) :
  newMoon tz <= date ->
  getMoonPhase tz (date + 2551442861.088) = getMoonPhase tz date.
Proof.
  intros Hd. unfold getMoonPhase. cbv zeta. apply getMoonPhase_bucket_ext.
  rewrite (lunarDay_agree_after tz date Hd).
  rewrite (lunarDay_agree_after tz (date + 2551442861.088)) by lra.
  apply getMoonData_lunarDay_periodic.
Qed.

(** ** Instants given by their distance from the reference new moon *)

Lemma getMoonPhase_lunarDay_elapsed (tz : Z) (date x : Q) :
  date - newMoon tz == x ->
  getMoonPhase_lunarDay tz date ==
  JS.rem (x / 1000 / 60 / 60 / 24 / 29.53058867) 1 * 29.53058867.
Proof.
  intros Hx. unfold getMoonPhase_lunarDay. cbv zeta.
  apply Qmult_comp; [| reflexivity].
  apply rem_Proper; [| reflexivity].
  now rewrite Hx.
Qed.

Lemma getMoonData_lunarDay_elapsed (tz : Z) (date x : Q) :
  date - newMoon tz == x ->
  getMoonData_lunarDay tz date == norm (x / 1000 / 60 / 60 / 24) 29.53058867.
Proof.
  intros Hx. rewrite getMoonData_lunarDay_norm. unfold norm.
  apply rem_Proper; [| reflexivity].
  apply Qplus_comp; [| reflexivity].
  apply rem_Proper; [| reflexivity].
  now rewrite Hx.
Qed.

(** C1, at a failing instant: ten days before the reference new moon (in
    any time zone of the host) the lunar day of [getMoonPhase] is -10,
    outside [0, 29.53058867), and the instant is reported as a new moon;
    [getMoonData] normalises the same instant to 19.53058867, a waning
    gibbous moon. *)
Theorem getMoonPhase_lunarDay_ten_days_before (tz : Z) :
  let date := newMoon tz - 10 * 86400000 in
  getMoonPhase_lunarDay tz date == - (10) /\
  ~ (0 <= getMoonPhase_lunarDay tz date) /\
  phase (getMoonPhase tz date) = "New Moon"%string /\
  getMoonData_lunarDay tz date == 19.53058867 /\
  phase (getMoonData tz date) = "Waning Gibbous"%string.
Proof.
  cbv zeta.
  assert (Hx : newMoon tz - 10 * 86400000 - newMoon tz == - (864000000)) by ring.
  assert (H1 : getMoonPhase_lunarDay tz (newMoon tz - 10 * 86400000) == - (10))
    by (rewrite (getMoonPhase_lunarDay_elapsed tz _ _ Hx); reflexivity).
  assert (H2 : getMoonData_lunarDay tz (newMoon tz - 10 * 86400000) == 19.53058867)
    by (rewrite (getMoonData_lunarDay_elapsed tz _ _ Hx); reflexivity).
  repeat split.
  - exact H1.
  - rewrite H1. intros H. lra.
  - unfold getMoonPhase. cbv zeta.
    now rewrite (getMoonPhase_bucket_ext _ _ H1).
  - exact H2.
  - unfold getMoonData. cbv zeta.
    now rewrite (getMoonData_bucket_ext _ _ H2).
Qed.

(** C9, at a failing instant: fifteen days before the reference new moon
    [getMoonPhase] reports a new moon with illumination 0, and one synodic
    month later (exactly, or cut to whole milliseconds) a full moon with
    illumination 100. *)
Theorem getMoonPhase_not_periodic_across_epoch (tz : Z) :
  let date := newMoon tz - 15 * 86400000 in
  getMoonPhase tz date =
    {| phase := "New Moon"; icon := "🌑"; illumination := 0 |} /\
  getMoonPhase tz (date + 2551442861.088) =
    {| phase := "Full Moon"; icon := "🌕"; illumination := 100 |} /\
  getMoonPhase tz (date + 2551442861) =
    {| phase := "Full Moon"; icon := "🌕"; illumination := 100 |} /\
  getMoonPhase_lunarDay tz date == - (15) /\
  getMoonPhase_lunarDay tz (date + 2551442861.088) == 14.53058867.
Proof.
  cbv zeta.
  assert (H1 : getMoonPhase_lunarDay tz (newMoon tz - 15 * 86400000) == - (15)).
  { rewrite (getMoonPhase_lunarDay_elapsed tz _ (- (1296000000))) by ring.
    reflexivity. }
  assert (H2 : getMoonPhase_lunarDay tz (newMoon tz - 15 * 86400000 + 2551442861.088)
               == 14.53058867).
  { rewrite (getMoonPhase_lunarDay_elapsed tz _ 1255442861.088) by ring.
    reflexivity. }
  assert (H3 : getMoonPhase_lunarDay tz (newMoon tz - 15 * 86400000 + 2551442861)
               == JS.rem (1255442861 / 1000 / 60 / 60 / 24 / 29.53058867) 1 * 29.53058867).
  { apply getMoonPhase_lunarDay_elapsed. ring. }
  unfold getMoonPhase. cbv zeta.
  rewrite (getMoonPhase_bucket_ext _ _ H1), (getMoonPhase_bucket_ext _ _ H2),
    (getMoonPhase_bucket_ext _ _ H3).
  repeat split; assumption.
Qed.

(** C10, at a failing instant: fifteen days before the reference new moon
    [getMoonPhase] names the phase New Moon and [getMoonData] names it
    Full Moon. *)
Theorem getMoonPhase_getMoonData_differ_before_epoch (tz : Z) :
  let date := newMoon tz - 15 * 86400000 in
  phase (getMoonPhase tz date) = "New Moon"%string /\
  phase (getMoonData tz date) = "Full Moon"%string /\
  phase (getMoonPhase tz date) <> phase (getMoonData tz date) /\
  getMoonPhase_lunarDay tz date == - (15) /\
  getMoonData_lunarDay tz date == 14.53058867.
Proof.
  cbv zeta.
  assert (H1 : getMoonPhase_lunarDay tz (newMoon tz - 15 * 86400000) == - (15)).
  { rewrite (getMoonPhase_lunarDay_elapsed tz _ (- (1296000000))) by ring.
    reflexivity. }
  assert (H2 : getMoonData_lunarDay tz (newMoon tz - 15 * 86400000) == 14.53058867).
  { rewrite (getMoonData_lunarDay_elapsed tz _ (- (1296000000))) by ring.
    reflexivity. }
  unfold getMoonPhase, getMoonData. cbv zeta.
  rewrite (getMoonPhase_bucket_ext _ _ H1), (getMoonData_bucket_ext _ _ H2).
  repeat split; try assumption. discriminate.
Qed.

(** ** Fishing-activity index: the overall score *)

Lemma pressureFactor_score_mod5 (pressure : Q) :
  (score (pressureFactor pressure) mod 5 = 0)%Z.
Proof. unfold pressureFactor. repeat js_case; reflexivity. Qed.

Lemma tempFactor_score_mod5 (ts : Q -> string) (waterTemp : Q) :
  (score (tempFactor ts waterTemp) mod 5 = 0)%Z.
Proof. unfold tempFactor. repeat js_case; reflexivity. Qed.

Lemma windFactor_score_mod5 (wind : Q) :
  (score (windFactor wind) mod 5 = 0)%Z.
Proof. unfold windFactor. repeat js_case; reflexivity. Qed.

Lemma moonFactor_score_mod5 (moonPhase : MoonInfo) :
  (score (moonFactor moonPhase) mod 5 = 0)%Z.
Proof.
  unfold moonFactor.
  destruct (String.eqb (phase moonPhase) "New Moon"),
    (String.eqb (phase moonPhase) "Full Moon"),
    (String.eqb (phase moonPhase) "First Quarter"),
    (String.eqb (phase moonPhase) "Last Quarter"); reflexivity.
Qed.

Lemma cloudFactor_score_mod5 (ts : Q -> string) (clouds : Q) :
  (score (cloudFactor ts clouds) mod 5 = 0)%Z.
Proof. unfold cloudFactor. repeat js_case; reflexivity. Qed.

(** The mean of a total that is a multiple of five is a whole number, and
    [Math.round] leaves it as it is. *)
Lemma Math_round_fifth (total : Z) :
  (total mod 5 = 0)%Z ->
  inject_Z (JS.Math_round (inject_Z total / 5)) == inject_Z total / 5.
Proof.
  intros H.
  assert (E : total = (5 * (total / 5))%Z) by (Z.div_mod_to_equations; lia).
  assert (Hq : inject_Z total / 5 == inject_Z (total / 5)).
  { rewrite E at 1. rewrite inject_Z_mult. change (inject_Z 5) with 5. field. }
  rewrite (Math_round_Proper _ _ Hq), Math_round_inject_Z. now rewrite Hq.
Qed.

Lemma ratingOf_buckets (s : Z) :
  (ratingOf s = Excellent <-> (80 <= s)%Z) /\
  (ratingOf s = Good <-> (65 <= s < 80)%Z) /\
  (ratingOf s = Fair <-> (50 <= s < 65)%Z) /\
  (ratingOf s = Poor <-> (s < 50)%Z).
Proof.
  unfold ratingOf.
  destruct (Z.geb_spec s 80);
    [| destruct (Z.geb_spec s 65); [| destruct (Z.geb_spec s 50)]];
    repeat split; intros; try discriminate; try lia; try reflexivity.
Qed.

(** C4: the overall score is the mean of the five sub-scores (pressure,
    water temperature, wind, moon phase, cloud cover) rounded to the
    nearest integer; the sub-scores being multiples of five, the mean is
    already whole.  The rating is Excellent from 80, Good from 65, Fair
    from 50 and Poor below. *)
Theorem scoreConditions_overallScore (ts : Q -> string)
    (current : CurrentWeather) (waterTemp : Q) (moonPhase : MoonInfo)
    (solunar : Solunar) :
  let c := scoreConditions ts current waterTemp moonPhase solunar in
  let p := pressureFactor (pressure_msl current * 0.02953) in
  let t := tempFactor ts waterTemp in
  let w := windFactor (wind_speed_10m current) in
  let m := moonFactor moonPhase in
  let cl := cloudFactor ts (cloud_cover current) in
  let mean := inject_Z (score p + score t + score w + score m + score cl) / 5 in
  factors c = [p; t; w; m; cl] /\
  overallScore c = JS.Math_round mean /\
  mean - (1 # 2) < inject_Z (overallScore c) <= mean + (1 # 2) /\
  inject_Z (overallScore c) == mean /\
  (rating c = Excellent <-> (80 <= overallScore c)%Z) /\
  (rating c = Good <-> (65 <= overallScore c < 80)%Z) /\
  (rating c = Fair <-> (50 <= overallScore c < 65)%Z) /\
  (rating c = Poor <-> (overallScore c < 50)%Z).
Proof.
  intros c p t w m cl mean.
  assert (Hs : overallScore c = JS.Math_round mean) by reflexivity.
  split; [reflexivity |]. split; [exact Hs |].
  split; [rewrite Hs; apply Math_round_nearest |].
  split.
  - rewrite Hs. apply Math_round_fifth.
    assert (Hp : (score p mod 5 = 0)%Z) by apply pressureFactor_score_mod5.
    assert (Ht : (score t mod 5 = 0)%Z) by apply tempFactor_score_mod5.
    assert (Hw : (score w mod 5 = 0)%Z) by apply windFactor_score_mod5.
    assert (Hm : (score m mod 5 = 0)%Z) by apply moonFactor_score_mod5.
    assert (Hc : (score cl mod 5 = 0)%Z) by apply cloudFactor_score_mod5.
    clearbody p t w m cl. Z.div_mod_to_equations. lia.
  - apply (ratingOf_buckets (overallScore c)).
Qed.

(** ** Fishing-activity index: the tips *)

(** All five conditions can hold at once: the list kept in the state then
    has five tips, of which the component lists three. *)
Example generateTips_five :
  let moon := {| phase := "Full Moon"; icon := "🌕"; illumination := 100 |} in
  List.length (generateTips 10 70 29.9 moon 60) = 5%nat /\
  firstn 3 (generateTips 10 70 29.9 moon 60) =
    [ "Fish the windward shoreline where baitfish concentrate";
      "Topwater lures effective in early morning";
      "Falling pressure - fish feeding aggressively" ]%string.
Proof. split; reflexivity. Qed.

(** C8, as the specification words it: the list the scorer stores is not
    capped at three.  With a wind of 10 mph, water at 70 degrees, a
    pressure of 1012 hPa (29.88 inHg), a full moon and 60 percent of
    clouds, all five conditions hold and the list has five tips. *)
Lemma scoreConditions_tips_not_capped_at_three :
  let current :=
    {| temperature_2m := 72; pressure_msl := 1012; wind_speed_10m := 10;
       cloud_cover := 60; precipitation := 0 |} in
  let moon := {| phase := "Full Moon"; icon := "🌕"; illumination := 100 |} in
  let solunar :=
    {| major := ["4pm-6pm"; "4am-6am"]; minor := ["10pm-12am"; "10am-12am"] |}%string in
  let c := scoreConditions (fun _ => EmptyString) current 70 moon solunar in
  tips c =
    [ "Fish the windward shoreline where baitfish concentrate";
      "Topwater lures effective in early morning";
      "Falling pressure - fish feeding aggressively";
      "Major solunar period - extended feeding windows";
      "Overcast conditions favor shallow water fishing" ]%string /\
  ~ (List.length (tips c) <= 3)%nat.
Proof.
  intros current moon solunar c.
  assert (H : List.length (tips c) = 5%nat) by reflexivity.
  split; [reflexivity | rewrite H; lia].
Qed.

(** C8, amended: the tips the scorer stores are the tips whose condition
    holds, in the order the conditionals are written (wind, water
    temperature, pressure, moon, clouds): between one and five of them,
    and the one default tip when no condition holds.  The cap of three is
    the component's: it lists the first three of the stored tips. *)
Theorem scoreConditions_tips_up_to_five (ts : Q -> string)
    (current : CurrentWeather) (waterTemp : Q) (moonPhase : MoonInfo)
    (solunar : Solunar) :
  let c := scoreConditions ts current waterTemp moonPhase solunar in
  let wind := wind_speed_10m current in
  let pressure := pressure_msl current * 0.02953 in
  let clouds := cloud_cover current in
  let matched :=
    map snd (filter fst
      [ ((wind >=? 5) && (wind <=? 15),
         "Fish the windward shoreline where baitfish concentrate"%string);
        ((waterTemp >=? 65) && (waterTemp <=? 75),
         "Topwater lures effective in early morning"%string);
        ((pressure >=? 29.8) && (pressure <=? 30.0),
         "Falling pressure - fish feeding aggressively"%string);
        (String.eqb (phase moonPhase) "Full Moon"
         || String.eqb (phase moonPhase) "New Moon",
         "Major solunar period - extended feeding windows"%string);
        (clouds >=? 50,
         "Overcast conditions favor shallow water fishing"%string) ]) in
  tips c = match matched with
           | [] => ["Fish structure and cover in deeper water"%string]
           | _ :: _ => matched
           end /\
  (1 <= List.length (tips c) <= 5)%nat /\
  (matched = [] ->
   tips c = ["Fish structure and cover in deeper water"%string]) /\
  shownTips c = firstn 3 (tips c) /\
  (1 <= List.length (shownTips c) <= 3)%nat.
Proof.
  intros c wind pressure clouds.
  unfold shownTips, c, scoreConditions. cbn [tips]. fold wind pressure clouds.
  unfold generateTips.
  destruct ((wind >=? 5) && (wind <=? 15)),
    ((waterTemp >=? 65) && (waterTemp <=? 75)),
    ((pressure >=? 29.8) && (pressure <=? 30.0)),
    (String.eqb (phase moonPhase) "Full Moon"
     || String.eqb (phase moonPhase) "New Moon"),
    (clouds >=? 50);
    cbn; repeat split; try lia; try discriminate.
Qed.

(** ** The state-and-error computations *)

Lemma bind_ret_l {A B : Type} (a : A) (k : A -> Eff.M B) (s : State) :
  Eff.bind (Eff.ret a) k s = k a s.
Proof. reflexivity. Qed.

Lemma bind_ret_r {A : Type} (m : Eff.M A) (s : State) :
  Eff.bind m Eff.ret s = m s.
Proof. unfold Eff.bind, Eff.ret. destruct (m s) as [[e | a] s']; reflexivity. Qed.

Lemma bind_assoc {A B C : Type} (m : Eff.M A) (k : A -> Eff.M B)
    (h : B -> Eff.M C) (s : State) :
  Eff.bind (Eff.bind m k) h s = Eff.bind m (fun a => Eff.bind (k a) h) s.
Proof. unfold Eff.bind. destruct (m s) as [[e | a] s']; reflexivity. Qed.

(** A throw skips the rest of the block and keeps the state it happened
    in; the handler of a [catch] starts from that state. *)
Lemma bind_throw {A B : Type} (e : Error) (k : A -> Eff.M B) (s : State) :
  Eff.bind (Eff.throw e) k s = (inl e, s).
Proof. reflexivity. Qed.

Lemma try_catch_throw {A : Type} (e : Error) (handler : Error -> Eff.M A)
    (s : State) :
  Eff.try_catch (Eff.throw e) handler s = handler e s.
Proof. reflexivity. Qed.

(** ** Fishing-activity index: the runs of [calculateConditions] *)

Section Runs.

Variable tz : Z.
Variable ts : Q -> string.
Variable props : FishActivityIndexProps.

(** A reply that carries [current]: the scored conditions and the moon
    phase are stored, and loading ends. *)
Lemma calculateConditions_success (env : Env) (cur : CurrentWeather) (s : State) :
  upstream env = Resolved (Body (JsonObject (Some cur))) ->
  calculateConditions tz ts props env s =
    (inr tt,
     {| conditions :=
          Some (scoreConditions ts cur
                  (match propWaterTemp props with Some t => t | None => 68 end)
                  (getMoonPhase tz (clock1 env))
                  (getSolunarPeriods tz (clock2 env) (propLat props)));
        loading := false;
        moonData := Some (getMoonPhase tz (clock1 env)) |}).
Proof.
  intros Hup. unfold calculateConditions, fetch. rewrite Hup. reflexivity.
Qed.

(** X17: no run lets an error out, and every run ends with conditions
    stored and loading off. *)
Lemma calculateConditions_total (env : Env) (s : State) :
  exists c : FishingConditions,
    fst (calculateConditions tz ts props env s) = inr tt /\
    conditions (snd (calculateConditions tz ts props env s)) = Some c /\
    loading (snd (calculateConditions tz ts props env s)) = false.
Proof.
  unfold calculateConditions, fetch.
  destruct (upstream env) as [| [| [| [cur |]]]];
    eexists; repeat split.
Qed.

(** A reply without [current] fails after the moon phase was stored:
    the default conditions go with the fresh moon phase. *)
Lemma calculateConditions_no_current (env : Env) (s : State) :
  upstream env = Resolved (Body (JsonObject None)) ->
  calculateConditions tz ts props env s =
    (inr tt,
     {| conditions := Some defaultConditions;
        loading := false;
        moonData := Some (getMoonPhase tz (clock1 env)) |}).
Proof.
  intros Hup. unfold calculateConditions, fetch. rewrite Hup. reflexivity.
Qed.

End Runs.

(** C7: when the fetch rejects or the body does not parse as JSON, the run
    ends without an error, with the fixed default conditions stored (score
    60, rating Fair, one tip), loading off and the stored moon phase
    untouched. *)
Theorem calculateConditions_fetch_failure (tz : Z) (ts : Q -> string)
    (props : FishActivityIndexProps) (env : Env) (s : State) :
  upstream env = Rejected \/ upstream env = Resolved BodyNotJson ->
  calculateConditions tz ts props env s =
    (inr tt,
     {| conditions := Some defaultConditions;
        loading := false;
        moonData := moonData s |}) /\
  overallScore defaultConditions = 60%Z /\
  rating defaultConditions = Fair /\
  tips defaultConditions = ["Check local conditions before heading out"%string] /\
  List.length (tips defaultConditions) = 1%nat.
Proof.
  intros [Hup | Hup]; unfold calculateConditions, fetch; rewrite Hup;
    repeat split.
Qed.

(** A rejected fetch on first mount, on a host six hours west of UTC. *)
Lemma calculateConditions_fetch_failure_witness :
  let env := {| upstream := Rejected; clock1 := 1762128000000; clock2 := 1762128000000 |} in
  let props := {| propLat := 34.6619; propLng := -95.3890; propWaterTemp := None |} in
  (upstream env = Rejected \/ upstream env = Resolved BodyNotJson) /\
  calculateConditions 360 (fun _ => EmptyString) props env initialState =
    (inr tt,
     {| conditions := Some defaultConditions; loading := false; moonData := None |}).
Proof.
  intros env props. split.
  - left. reflexivity.
  - apply (calculateConditions_fetch_failure 360 (fun _ => EmptyString) props env initialState).
    left. reflexivity.
Defined.

(** * Further properties of the components *)

(** ** Whole numbers and rounding *)

Lemma Qfloor_unique (y : Q) (m : Z) :
  inject_Z m <= y -> y < inject_Z (m + 1) -> Qfloor y = m.
Proof.
  intros Hle Hlt.
  pose proof (Qfloor_le y) as Fle. pose proof (Qlt_floor y) as Flt.
  assert (H1 : inject_Z m < inject_Z (Qfloor y + 1)) by (eapply Qle_lt_trans; eassumption).
  assert (H2 : inject_Z (Qfloor y) < inject_Z (m + 1)) by (eapply Qle_lt_trans; eassumption).
  rewrite <- Zlt_Qlt in H1, H2. lia.
Qed.

Lemma Math_round_plus_Z (x : Q) (k : Z) :
  JS.Math_round (x + inject_Z k) = (JS.Math_round x + k)%Z.
Proof.
  unfold JS.Math_round. apply Qfloor_unique.
  - rewrite inject_Z_plus. pose proof (Qfloor_le (x + (1 # 2))) as H.
    set (n := inject_Z (Qfloor (x + (1 # 2)))) in *. set (q := inject_Z k). lra.
  - pose proof (Qlt_floor (x + (1 # 2))) as H. rewrite !inject_Z_plus in *.
    set (n := inject_Z (Qfloor (x + (1 # 2)))) in *. set (q := inject_Z k).
    change (inject_Z 1) with 1 in *. lra.
Qed.

Lemma Math_round_nonneg (x : Q) : - (1 # 2) <= x -> (0 <= JS.Math_round x)%Z.
Proof.
  intros Hx. unfold JS.Math_round.
  change 0%Z with (Qfloor 0). apply Qfloor_resp_le. lra.
Qed.

Lemma Math_round_mono (x y : Q) : x <= y -> (JS.Math_round x <= JS.Math_round y)%Z.
Proof. intros H. unfold JS.Math_round. apply Qfloor_resp_le. lra. Qed.

(** ** Weather codes *)

Lemma assocZ_In {A : Type} (k : Z) (l : list (Z * A)) (v : A) :
  assocZ k l = Some v -> In (k, v) l.
Proof.
  induction l as [| [k' v'] rest IH]; cbn; [discriminate |].
  destruct (Z.eqb_spec k k') as [-> | _].
  - intros [= ->]. now left.
  - intros H. right. now apply IH.
Qed.

Lemma getWeatherDescription_ext (a b : Q) :
  a == b -> getWeatherDescription a = getWeatherDescription b.
Proof.
  intros H. unfold getWeatherDescription.
  rewrite (Qeqb_comp a b H 0 0 (Qeq_refl 0)).
  repeat match goal with
  | |- context [JS.leb a ?c] => rewrite (leb_Proper a b H c c (Qeq_refl c))
  end.
  reflexivity.
Qed.

(** X1: the two tables of weather codes agree: a code the widget knows is
    never described as Unknown by the planner, and the icon the widget
    draws matches the planner's wording (sun for Clear or Partly Cloudy,
    fog for Foggy, drizzle for Drizzle, rain for Rain or Showers, snow for
    Snow, lightning for Thunderstorms); a code missing from the widget's
    table, whole or not, gets Unknown with the cloud icon. *)
Theorem getWeatherInfo_agrees_with_description (code : Q) (isDay : bool) :
  let info := getWeatherInfo code isDay in
  let d := getWeatherDescription code in
  (weatherMap_get code = None /\
   info = {| description := "Unknown"; infoIcon := Cloud |}) \/
  (weatherMap_get code = Some info /\
   description info <> "Unknown"%string /\
   d <> "Unknown"%string /\
   match infoIcon info with
   | Sun => d = "Clear"%string \/ d = "Partly Cloudy"%string
   | Cloud => d = "Partly Cloudy"%string
   | CloudFog => d = "Foggy"%string
   | CloudDrizzle => d = "Drizzle"%string
   | CloudRain => d = "Rain"%string \/ d = "Showers"%string
   | CloudSnow => d = "Snow"%string
   | CloudLightning => d = "Thunderstorms"%string
   end).
Proof.
  cbv zeta. unfold getWeatherInfo.
  destruct (weatherMap_get code) as [info |] eqn:Hget; [right | left; split; reflexivity].
  split; [reflexivity |].
  unfold weatherMap_get in Hget.
  destruct (Qeq_bool (inject_Z (Qfloor code)) code) eqn:Hint; [| discriminate].
  apply Qeq_bool_eq in Hint. apply assocZ_In in Hget.
  rewrite <- (getWeatherDescription_ext _ _ Hint).
  unfold weatherMap in Hget. cbn [In] in Hget.
  repeat (destruct Hget as [Hget | Hget];
          [injection Hget as <- <-; cbn; repeat split; try discriminate; auto |]).
  contradiction.
Qed.

(** ** Wind direction *)

Lemma directions_length : List.length directions = 16%nat.
Proof. reflexivity. Qed.

(** X2: from -11.25 degrees up, [getWindDirection] names one of the sixteen
    compass points, and the point it names lies within 11.25 degrees of
    the bearing, whole turns apart. *)
Theorem getWindDirection_nearest (degrees : Q) :
  - 11.25 <= degrees ->
  exists (i : nat) (turns : Z) (name : string),
    getWindDirection degrees = Some name /\
    nth_error directions i = Some name /\
    (i < 16)%nat /\ (0 <= turns)%Z /\
    Qabs (degrees - (22.5 * inject_Z (Z.of_nat i) + 360 * inject_Z turns)) <= 11.25.
Proof.
  intros Hd.
  set (n := JS.Math_round (degrees / 22.5)).
  assert (Hx : - (1 # 2) <= degrees / 22.5).
  { apply Qle_shift_div_l; [reflexivity | lra]. }
  assert (Hn : (0 <= n)%Z) by (apply Math_round_nonneg; exact Hx).
  pose proof (Math_round_nearest (degrees / 22.5)) as [Hlo Hhi]. fold n in Hlo, Hhi.
  assert (Hrem : Z.rem n 16 = (n mod 16)%Z) by (apply Z.rem_mod_nonneg; lia).
  pose proof (Z.mod_pos_bound n 16 ltac:(lia)) as Hmod.
  set (i := Z.to_nat (n mod 16)).
  assert (Hi : (i < 16)%nat) by (unfold i; lia).
  destruct (nth_error directions i) as [name |] eqn:Hname.
  2:{ apply nth_error_None in Hname. rewrite directions_length in Hname. lia. }
  exists i, (n / 16)%Z, name. split; [| split; [| split; [| split]]].
  - unfold getWindDirection. cbv zeta. fold n. rewrite Hrem. unfold index.
    destruct (Z.ltb_spec (n mod 16) 0); [lia | exact Hname].
  - exact Hname.
  - exact Hi.
  - apply Z.div_pos; lia.
  - assert (Hq : 22.5 * inject_Z (Z.of_nat i) + 360 * inject_Z (n / 16)
                 == 22.5 * inject_Z n).
    { unfold i. rewrite Z2Nat.id by lia.
      rewrite (Z.div_mod n 16) at 3 by lia.
      rewrite inject_Z_plus, inject_Z_mult. change (inject_Z 16) with 16. ring. }
    rewrite Hq. apply Qabs_Qle_condition.
    assert (Hdeg : degrees == 22.5 * (degrees / 22.5)) by (field; discriminate).
    set (x := degrees / 22.5) in *. set (q := inject_Z n) in *. lra.
Qed.

(** A bearing due south-south-west. *)
Lemma getWindDirection_nearest_witness :
  - 11.25 <= 200 /\
  exists (i : nat) (turns : Z) (name : string),
    getWindDirection 200 = Some name /\
    nth_error directions i = Some name /\
    (i < 16)%nat /\ (0 <= turns)%Z /\
    Qabs (200 - (22.5 * inject_Z (Z.of_nat i) + 360 * inject_Z turns)) <= 11.25.
Proof.
  split.
  - lra.
  - apply (getWindDirection_nearest 200). lra.
Defined.

(** A full turn more names the same point. *)
Theorem getWindDirection_full_turn (degrees : Q) :
  - 11.25 <= degrees ->
  getWindDirection (degrees + 360) = getWindDirection degrees.
Proof.
  intros Hd. unfold getWindDirection. cbv zeta.
  assert (Hq : (degrees + 360) / 22.5 == degrees / 22.5 + inject_Z 16)
    by (change (inject_Z 16) with 16; field; discriminate).
  rewrite (Math_round_Proper _ _ Hq), Math_round_plus_Z.
  set (n := JS.Math_round (degrees / 22.5)).
  assert (Hn : (0 <= n)%Z).
  { apply Math_round_nonneg. apply Qle_shift_div_l; [reflexivity | lra]. }
  rewrite !Z.rem_mod_nonneg by lia.
  replace ((n + 16) mod 16)%Z with (n mod 16)%Z; [reflexivity |].
  symmetry. exact (Z.mod_add n 1 16 ltac:(lia)).
Qed.

Lemma getWindDirection_full_turn_witness :
  - 11.25 <= 45 /\ getWindDirection (45 + 360) = getWindDirection 45.
Proof.
  split.
  - lra.
  - apply (getWindDirection_full_turn 45). lra.
Defined.



(** ** The hourly forecast *)

(** X4: with [currentHour] between 0 and 23 the hourly list holds the entries
    of the hours from [currentHour] to the end of the day, twelve at most:
    min(12, 24 - currentHour) of them, in order. *)
Theorem hourlyData_until_midnight (hourly : HourlyBlock) (currentHour : Z) :
  (0 <= currentHour <= 23)%Z ->
  hourlyData hourly currentHour =
    map (fun k => hourlyEntry hourly (currentHour + Z.of_nat k))
        (seq 0 (Z.to_nat (Z.min 12 (24 - currentHour)))) /\
  List.length (hourlyData hourly currentHour) = Z.to_nat (Z.min 12 (24 - currentHour)) /\
  (List.length (hourlyData hourly currentHour) = 12%nat <-> (currentHour <= 12)%Z).
Proof.
  intros Hh.
  assert (Hcases : In currentHour
            [0; 1; 2; 3; 4; 5; 6; 7; 8; 9; 10; 11; 12; 13; 14; 15; 16; 17;
             18; 19; 20; 21; 22; 23]%Z).
  { cbn [In]. lia. }
  cbn [In] in Hcases.
  repeat (destruct Hcases as [<- | Hcases];
          [unfold hourlyData; cbn; repeat split; intros; try reflexivity; try lia;
           try discriminate |]).
  contradiction.
Qed.

(** Six in the evening: six hours are left. *)
Lemma hourlyData_until_midnight_witness :
  let hourly := {| hourly_time := []; hourly_temperature_2m := [];
                   hourly_weather_code := []; hourly_precipitation_probability := [] |} in
  (0 <= 18 <= 23)%Z /\ List.length (hourlyData hourly 18) = 6%nat.
Proof.
  intros hourly. split.
  - lia.
  - destruct (hourlyData_until_midnight hourly 18) as (_ & H & _); [lia | exact H].
Defined.

(** ** Counting with [filter] *)

Lemma filter_length_le {A : Type} (p : A -> bool) (l : list A) :
  (List.length (filter p l) <= List.length l)%nat.
Proof. induction l as [| x l IH]; cbn; [lia |]. destruct (p x); cbn; lia. Qed.

Lemma filter_length_all {A : Type} (p : A -> bool) (l : list A) :
  List.length (filter p l) = List.length l <-> Forall (fun x => p x = true) l.
Proof.
  induction l as [| x l IH]; cbn.
  - split; [constructor | reflexivity].
  - pose proof (filter_length_le p l) as Hle.
    destruct (p x) eqn:Hx; cbn; split; intros H.
    + constructor; [exact Hx | apply IH; lia].
    + inversion H; subst. f_equal. now apply IH.
    + lia.
    + inversion H; subst. congruence.
Qed.

Lemma filter_length_none {A : Type} (p : A -> bool) (l : list A) :
  List.length (filter p l) = 0%nat <-> Forall (fun x => p x = false) l.
Proof.
  induction l as [| x l IH]; cbn.
  - split; [constructor | reflexivity].
  - destruct (p x) eqn:Hx; cbn; split; intros H.
    + discriminate.
    + inversion H; subst. congruence.
    + constructor; [exact Hx | now apply IH].
    + inversion H; subst. now apply IH.
Qed.

Lemma filter_length_some {A : Type} (p : A -> bool) (l : list A) (x : A) :
  In x l -> p x = true -> (1 <= List.length (filter p l))%nat.
Proof.
  intros Hin Hp.
  assert (Hf : In x (filter p l)) by (apply filter_In; split; assumption).
  destruct (filter p l); [contradiction | cbn; lia].
Qed.

(** ** The boat-ramp panel *)

Lemma RampStatus_eqb_eq (a b : RampStatus) : RampStatus_eqb a b = true <-> a = b.
Proof. destruct a, b; cbn; split; intros H; try reflexivity; discriminate. Qed.

Lemma RampStatus_eqb_neq (a b : RampStatus) : RampStatus_eqb a b = false <-> a <> b.
Proof. destruct a, b; cbn; split; intros H; try reflexivity; try discriminate; congruence. Qed.

(** X6: each ramp is counted once: the three counts add up to the five ramps,
    whatever the elevation. *)
Theorem ramp_counts_partition (currentElevation : Q) :
  (openCount currentElevation + limitedCount currentElevation
   + closedCount currentElevation)%nat = List.length BOAT_RAMPS /\
  List.length BOAT_RAMPS = 5%nat.
Proof.
  split; [| reflexivity].
  unfold openCount, limitedCount, closedCount.
  rewrite <- (length_map (fun ramp => (ramp, getRampStatus ramp currentElevation)) BOAT_RAMPS).
  fold (rampStatuses currentElevation).
  induction (rampStatuses currentElevation) as [| [r rep] l IH]; cbn; [reflexivity |].
  destruct (status rep); cbn; lia.
Qed.

(** X5: higher water never lowers the status of a ramp, whatever its two
    elevations: closed, limited, open is the order. *)
Theorem getRampStatus_monotone (ramp : BoatRamp) (e1 e2 : Q) :
  e1 <= e2 ->
  (statusRank (status (getRampStatus ramp e1))
   <= statusRank (status (getRampStatus ramp e2)))%Z.
Proof.
  intros He. unfold getRampStatus. cbv zeta.
  repeat js_case; cbn; first [lia | exfalso; lra].
Qed.

Lemma getRampStatus_monotone_witness :
  let ramp := nth 3 BOAT_RAMPS
                {| id := ""; name := ""; location := ""; minElevation := 0;
                   optimalElevation := 0; coordinates := {| lat := 0; lng := 0 |};
                   amenities := []; parkingSpaces := 0; phone := None |} in
  593 <= 596 /\
  (statusRank (status (getRampStatus ramp 593))
   <= statusRank (status (getRampStatus ramp 596)))%Z.
Proof.
  intros ramp. split.
  - lra.
  - apply (getRampStatus_monotone ramp 593 596). lra.
Defined.

(** The two elevations of the five ramps. *)
Lemma BOAT_RAMPS_elevations (ramp : BoatRamp) :
  In ramp BOAT_RAMPS ->
  (minElevation ramp = 590 /\ optimalElevation ramp = 595) \/
  (minElevation ramp = 588 /\ optimalElevation ramp = 594) \/
  (minElevation ramp = 585 /\ optimalElevation ramp = 592) \/
  (minElevation ramp = 592 /\ optimalElevation ramp = 597) \/
  (minElevation ramp = 594 /\ optimalElevation ramp = 598).
Proof.
  unfold BOAT_RAMPS. cbn [In].
  intros [<- | [<- | [<- | [<- | [<- | []]]]]]; cbn [minElevation optimalElevation]; tauto.
Qed.

Lemma BOAT_RAMPS_has (lo hi : Q) :
  In (lo, hi) [(585, 592); (594, 598)] ->
  exists ramp, In ramp BOAT_RAMPS /\ minElevation ramp = lo /\ optimalElevation ramp = hi.
Proof.
  cbn [In]. intros [[= <- <-] | [[= <- <-] | []]]; eexists; unfold BOAT_RAMPS; cbn [In].
  - split; [right; right; left; reflexivity | split; reflexivity].
  - split; [do 4 right; left; reflexivity | split; reflexivity].
Qed.

Lemma rampStatuses_all (p : RampStatus -> bool) (e : Q) :
  Forall (fun row => p (status (snd row)) = true) (rampStatuses e) <->
  (forall ramp, In ramp BOAT_RAMPS -> p (status (getRampStatus ramp e)) = true).
Proof.
  unfold rampStatuses. rewrite Forall_map, Forall_forall. reflexivity.
Qed.

Lemma rampStatuses_length (e : Q) : List.length (rampStatuses e) = 5%nat.
Proof. unfold rampStatuses. rewrite length_map. reflexivity. Qed.

(** X7: the elevations at which the panel shows all five ramps open (597 ft
    and more), none closed (594 ft and more) and all closed (below 585
    ft). *)
Theorem ramp_counts_thresholds (currentElevation : Q) :
  (openCount currentElevation = 5%nat <-> 597 <= currentElevation) /\
  (closedCount currentElevation = 0%nat <-> 594 <= currentElevation) /\
  (closedCount currentElevation = 5%nat <-> currentElevation < 585).
Proof.
  set (e := currentElevation).
  destruct (BOAT_RAMPS_has 585 592) as (cove & Hcove & Cmin & Copt); [cbn; tauto |].
  destruct (BOAT_RAMPS_has 594 598) as (jack & Hjack & Jmin & Jopt); [cbn; tauto |].
  unfold openCount, closedCount.
  rewrite <- !(rampStatuses_length e).
  rewrite !filter_length_all.
  rewrite (rampStatuses_all (fun s => RampStatus_eqb s open)).
  rewrite (rampStatuses_all (fun s => RampStatus_eqb s closed)).
  rewrite filter_length_none.
  assert (Hnone : Forall (fun x => RampStatus_eqb (status (snd x)) closed = false)
                    (rampStatuses e) <->
                  (forall ramp, In ramp BOAT_RAMPS ->
                     status (getRampStatus ramp e) <> closed)).
  { unfold rampStatuses. rewrite Forall_map, Forall_forall. cbn [snd].
    split; intros H ramp Hin; apply RampStatus_eqb_neq, H, Hin. }
  rewrite Hnone. clear Hnone.
  split; [| split]; split.
  - intros H. specialize (H jack Hjack). apply RampStatus_eqb_eq in H.
    apply (getRampStatus_status jack e) in H. rewrite Jmin, Jopt in H. lra.
  - intros He ramp Hin. apply RampStatus_eqb_eq, (getRampStatus_status ramp e).
    destruct (BOAT_RAMPS_elevations ramp Hin)
      as [[-> ->] | [[-> ->] | [[-> ->] | [[-> ->] | [-> ->]]]]]; right; lra.
  - intros H. specialize (H jack Hjack).
    destruct (Qlt_le_dec e 594) as [Hlt | Hge]; [| exact Hge].
    exfalso. apply H, (getRampStatus_status jack e). rewrite Jmin, Jopt. lra.
  - intros He ramp Hin Hc. apply (getRampStatus_status ramp e) in Hc.
    destruct (BOAT_RAMPS_elevations ramp Hin)
      as [[Hm Ho] | [[Hm Ho] | [[Hm Ho] | [[Hm Ho] | [Hm Ho]]]]];
      rewrite Hm, Ho in Hc; lra.
  - intros H. specialize (H cove Hcove). apply RampStatus_eqb_eq in H.
    apply (getRampStatus_status cove e) in H. rewrite Cmin, Copt in H. lra.
  - intros He ramp Hin. apply RampStatus_eqb_eq, (getRampStatus_status ramp e).
    destruct (BOAT_RAMPS_elevations ramp Hin)
      as [[-> ->] | [[-> ->] | [[-> ->] | [[-> ->] | [-> ->]]]]]; lra.
Qed.

(** X8: whenever the low-water advisory shows for a normal pool of 599 ft or
    less, at least one ramp is closed. *)
Theorem lowWaterAdvisory_closes_a_ramp (currentElevation normalPool : Q) :
  normalPool <= 599 ->
  lowWaterAdvisory currentElevation normalPool = true ->
  (1 <= closedCount currentElevation)%nat.
Proof.
  intros Hnp Hadv. apply ltb_iff in Hadv.
  destruct (BOAT_RAMPS_has 594 598) as (jack & Hjack & Jmin & Jopt); [cbn; tauto |].
  unfold closedCount.
  apply (filter_length_some _ _ (jack, getRampStatus jack currentElevation)).
  - unfold rampStatuses.
    apply (in_map (fun ramp => (ramp, getRampStatus ramp currentElevation))), Hjack.
  - cbn [snd]. apply RampStatus_eqb_eq.
    apply (getRampStatus_status jack currentElevation).
    rewrite Jmin, Jopt. lra.
Qed.

Lemma lowWaterAdvisory_closes_a_ramp_witness :
  normalPoolElevation SARDIS_LAKE_DATA <= 599 /\
  lowWaterAdvisory 593 (normalPoolElevation SARDIS_LAKE_DATA) = true /\
  (1 <= closedCount 593)%nat.
Proof.
  split; [cbn; lra |]. split; [reflexivity |].
  apply (lowWaterAdvisory_closes_a_ramp 593 (normalPoolElevation SARDIS_LAKE_DATA));
    [cbn; lra | reflexivity].
Defined.

(** ** Sun times *)

Lemma trunc_between (x : Q) (lo hi : Z) :
  inject_Z lo <= x -> x <= inject_Z hi -> (lo <= JS.trunc x <= hi)%Z.
Proof.
  intros Hlo Hhi. unfold JS.trunc. destruct (0 <=? x) eqn:H0.
  - split.
    + rewrite <- (Qfloor_Z lo). now apply Qfloor_resp_le.
    + rewrite <- (Qfloor_Z hi). now apply Qfloor_resp_le.
  - split.
    + rewrite <- (Qceiling_Z lo). now apply Qceiling_resp_le.
    + rewrite <- (Qceiling_Z hi). now apply Qceiling_resp_le.
Qed.

Lemma trunc_near (x : Q) : x - 1 < inject_Z (JS.trunc x) < x + 1.
Proof.
  unfold JS.trunc. destruct (0 <=? x).
  - pose proof (Qfloor_le x) as H1. pose proof (Qlt_floor x) as H2.
    rewrite inject_Z_plus in H2. change (inject_Z 1) with 1 in H2.
    set (n := inject_Z (Qfloor x)) in *. lra.
  - pose proof (Qle_ceiling x) as H1. pose proof (Qceiling_lt x) as H2.
    unfold Z.sub in H2. rewrite inject_Z_plus, inject_Z_opp in H2.
    change (inject_Z 1) with 1 in H2.
    set (n := inject_Z (Qceiling x)) in *. lra.
Qed.

(** X9: when the sun rises before it sets, solar noon falls within the day and
    is its midpoint to the millisecond (the half of an odd day length is
    cut); the blue and golden hours keep their order around sunrise and
    sunset, and the two golden hours do not overlap exactly when the day
    has two hours or more. *)
Theorem sunTimes_order (sunrise sunset : Z) :
  (sunrise <= sunset)%Z ->
  let t := sunTimes sunrise sunset in
  (sunrise <= solarNoon t <= sunset)%Z /\
  (-1 <= (sunset - solarNoon t) - (solarNoon t - sunrise) <= 1)%Z /\
  (blueMorningStart t < blueMorningEnd t < sunrise)%Z /\
  (sunrise < goldenMorningEnd t)%Z /\
  (goldenEveningStart t < sunset)%Z /\
  (sunset < blueEveningStart t < blueEveningEnd t)%Z /\
  ((goldenMorningEnd t <= goldenEveningStart t)%Z <-> 2 <= dayLengthHours t).
Proof.
  intros Hday t. unfold t, sunTimes.
  cbn [solarNoon blueMorningStart blueMorningEnd goldenMorningEnd
       goldenEveningStart blueEveningStart blueEveningEnd dayLengthHours].
  set (x := inject_Z sunrise + inject_Z (sunset - sunrise) / 2).
  assert (Hx : inject_Z sunrise <= x /\ x <= inject_Z sunset /\
               2 * x == inject_Z sunrise + inject_Z sunset).
  { unfold x. unfold Z.sub. rewrite inject_Z_plus, inject_Z_opp.
    assert (H : inject_Z sunrise <= inject_Z sunset) by (rewrite <- Zle_Qle; exact Hday).
    set (r := inject_Z sunrise) in *. set (s := inject_Z sunset) in *.
    assert (E : r + (s + - r) / 2 == (1 # 2) * r + (1 # 2) * s) by field.
    rewrite E. repeat split; lra. }
  destruct Hx as (Hlo & Hhi & Hmid).
  pose proof (trunc_between x sunrise sunset Hlo Hhi) as Hin.
  pose proof (trunc_near x) as [Hn1 Hn2].
  unfold Date_of. set (noon := JS.trunc x) in *.
  split; [exact Hin |]. split.
  - assert (H1 : inject_Z (2 * noon) < inject_Z (sunrise + sunset + 2)).
    { rewrite inject_Z_mult, !inject_Z_plus. change (inject_Z 2) with 2.
      set (r := inject_Z sunrise) in *. set (s := inject_Z sunset) in *.
      set (q := inject_Z noon) in *. lra. }
    assert (H2 : inject_Z (sunrise + sunset - 2) < inject_Z (2 * noon)).
    { unfold Z.sub. rewrite inject_Z_mult, !inject_Z_plus, inject_Z_opp.
      change (inject_Z 2) with 2.
      set (r := inject_Z sunrise) in *. set (s := inject_Z sunset) in *.
      set (q := inject_Z noon) in *. lra. }
    rewrite <- Zlt_Qlt in H1, H2. lia.
  - repeat split; try lia.
    + intros H. apply Qle_shift_div_l; [reflexivity |].
      apply Qle_shift_div_l; [reflexivity |].
      apply Qle_shift_div_l; [reflexivity |].
      change (2 * 60 * 60 * 1000) with (inject_Z 7200000).
      rewrite <- Zle_Qle. lia.
    + intros H.
      assert (H' : inject_Z 7200000 <= inject_Z (sunset - sunrise)).
      { set (d := inject_Z (sunset - sunrise)) in *.
        assert (E : d == d / 1000 / 60 / 60 * 3600000) by (field; discriminate).
        rewrite E. change (inject_Z 7200000) with (2 * 3600000).
        set (h := d / 1000 / 60 / 60) in *. lra. }
      rewrite <- Zle_Qle in H'. lia.
Qed.

(** Sunrise at 06:00 and sunset at 18:00:01 (UTC) of 1 March 2025. *)
Lemma sunTimes_order_witness :
  (1740808800000 <= 1740852001000)%Z /\
  solarNoon (sunTimes 1740808800000 1740852001000) = 1740830400500%Z.
Proof.
  split.
  - lia.
  - destruct (sunTimes_order 1740808800000 1740852001000) as ((H1 & H2) & _);
      [lia | reflexivity].
Defined.

(** ** Recreation rating: weather codes, rain and wind *)

(** X10: how the wording of a weather code and its effect on the score go
    together: the bonus of 5 goes exactly to the codes worded Clear or
    Partly Cloudy; Foggy and Drizzle change nothing; Snow and Showers cost
    20; an Unknown code (above 99) costs 30 like a thunderstorm; a code
    worded Rain costs 20 from 61 on only, and one worded Thunderstorms
    costs 30 from 95 on and 20 below. *)
Theorem weatherCodeAdjustment_by_description (day : DayInput) :
  let d := getWeatherDescription (weatherCode day) in
  let a := weatherCodeAdjustment day in
  (a = 5%Z <-> d = "Clear"%string \/ d = "Partly Cloudy"%string) /\
  (d = "Foggy"%string \/ d = "Drizzle"%string -> a = 0%Z) /\
  (d = "Rain"%string ->
   (a = 0%Z /\ weatherCode day < 61) \/ (a = (-20)%Z /\ 61 <= weatherCode day)) /\
  (d = "Snow"%string \/ d = "Showers"%string -> a = (-20)%Z) /\
  (d = "Thunderstorms"%string ->
   (a = (-20)%Z /\ weatherCode day < 95) \/ (a = (-30)%Z /\ 95 <= weatherCode day)) /\
  (d = "Unknown"%string -> a = (-30)%Z).
Proof.
  cbv zeta. unfold getWeatherDescription, weatherCodeAdjustment.
  set (c := weatherCode day).
  destruct (Qeq_bool c 0) eqn:H0;
    [apply Qeq_bool_eq in H0 | apply Qeq_bool_neq in H0];
    repeat js_case;
    repeat split; intros;
    repeat match goal with
           | H : _ \/ _ |- _ => destruct H
           end;
    try discriminate; try lia; try lra;
    try (left; split; [reflexivity | lra]);
    try (right; split; [reflexivity | lra]);
    try (left; reflexivity); try (right; reflexivity).
Qed.

Lemma ratingRank_monotone (s1 s2 : Z) (d1 d2 : DayInput) :
  recreationScore d1 = s1 -> recreationScore d2 = s2 -> (s2 <= s1)%Z ->
  (ratingRank (rateDayForRecreation d2) <= ratingRank (rateDayForRecreation d1))%Z.
Proof.
  intros <- <- H. unfold rateDayForRecreation. cbv zeta.
  destruct (Z.geb_spec (recreationScore d1) 80), (Z.geb_spec (recreationScore d1) 60),
    (Z.geb_spec (recreationScore d1) 40), (Z.geb_spec (recreationScore d2) 80),
    (Z.geb_spec (recreationScore d2) 60), (Z.geb_spec (recreationScore d2) 40);
    cbn; lia.
Qed.

(** X11: of two days with the same high temperature and weather code, the one
    with more chance of rain and more wind never scores higher and is
    never rated better. *)
Theorem rateDayForRecreation_worse_with_rain_and_wind (d1 d2 : DayInput) :
  tempHigh d1 = tempHigh d2 ->
  weatherCode d1 = weatherCode d2 ->
  precipProbability d1 <= precipProbability d2 ->
  windSpeed d1 <= windSpeed d2 ->
  (recreationScore d2 <= recreationScore d1)%Z /\
  (ratingRank (rateDayForRecreation d2) <= ratingRank (rateDayForRecreation d1))%Z.
Proof.
  intros Ht Hc Hp Hw.
  assert (Hs : (recreationScore d2 <= recreationScore d1)%Z).
  { rewrite !recreationScore_blocks.
    assert (E1 : temperatureAdjustment d1 = temperatureAdjustment d2)
      by (unfold temperatureAdjustment; now rewrite Ht).
    assert (E2 : weatherCodeAdjustment d1 = weatherCodeAdjustment d2)
      by (unfold weatherCodeAdjustment; now rewrite Hc).
    assert (E3 : (precipitationAdjustment d2 <= precipitationAdjustment d1)%Z).
    { unfold precipitationAdjustment. repeat js_case; first [lia | exfalso; lra]. }
    assert (E4 : (windAdjustment d2 <= windAdjustment d1)%Z).
    { unfold windAdjustment. repeat js_case; first [lia | exfalso; lra]. }
    lia. }
  split; [exact Hs |].
  now apply (ratingRank_monotone (recreationScore d1) (recreationScore d2)).
Qed.

(** A mild day, dry and calm, against the same day wet and windy. *)
Lemma rateDayForRecreation_worse_with_rain_and_wind_witness :
  let d1 := {| tempHigh := 78; precipProbability := 10; windSpeed := 8; weatherCode := 2 |} in
  let d2 := {| tempHigh := 78; precipProbability := 75; windSpeed := 30; weatherCode := 2 |} in
  rateDayForRecreation d1 = Excellent /\
  rateDayForRecreation d2 = Fair /\
  (recreationScore d2 <= recreationScore d1)%Z.
Proof.
  intros d1 d2. split; [reflexivity |]. split; [reflexivity |].
  apply (rateDayForRecreation_worse_with_rain_and_wind d1 d2);
    [reflexivity | reflexivity | cbn; lra | cbn; lra].
Defined.

(** ** Flood impact: order and nesting *)

(** X12: higher water never lowers any of the three impact figures. *)
Theorem floodImpactOf_monotone (lake : LakeData) (e1 e2 : Q) :
  e1 <= e2 ->
  (additionalAcres (floodImpactOf lake e1) <= additionalAcres (floodImpactOf lake e2))%Z /\
  (impactedStructures (floodImpactOf lake e1)
   <= impactedStructures (floodImpactOf lake e2))%Z /\
  (evacuationZone (floodImpactOf lake e1) <= evacuationZone (floodImpactOf lake e2))%Z.
Proof.
  intros He. unfold floodImpactOf.
  cbn [additionalAcres impactedStructures evacuationZone].
  set (np := normalPoolElevation lake).
  repeat split; repeat js_case;
    first [ lia
          | exfalso; lra
          | apply Math_round_mono; lra
          | apply Math_round_nonneg; lra ].
Qed.

Lemma floodImpactOf_monotone_witness :
  604 <= 610 /\
  (impactedStructures (calculateFloodImpact 604)
   <= impactedStructures (calculateFloodImpact 610))%Z.
Proof.
  split.
  - lra.
  - apply (floodImpactOf_monotone SARDIS_LAKE_DATA 604 610). lra.
Defined.

(** X13: no impact figure is negative, and the three thresholds nest: an
    evacuation zone comes only with impacted structures, and impacted
    structures only with additional acres. *)
Theorem floodImpactOf_nested (lake : LakeData) (e : Q) :
  (0 <= additionalAcres (floodImpactOf lake e))%Z /\
  (0 <= impactedStructures (floodImpactOf lake e))%Z /\
  (0 <= evacuationZone (floodImpactOf lake e))%Z /\
  ((0 < evacuationZone (floodImpactOf lake e))%Z ->
   (48 <= impactedStructures (floodImpactOf lake e))%Z) /\
  ((0 < impactedStructures (floodImpactOf lake e))%Z ->
   (900 <= additionalAcres (floodImpactOf lake e))%Z).
Proof.
  unfold floodImpactOf.
  cbn [additionalAcres impactedStructures evacuationZone].
  set (d := e - normalPoolElevation lake).
  assert (R900 : 5 <= d -> (900 <= JS.Math_round (d * 180))%Z).
  { intros H. rewrite <- (Math_round_inject_Z 900). apply Math_round_mono.
    change (inject_Z 900) with 900. lra. }
  assert (R48 : 9 <= d -> (48 <= JS.Math_round ((d - 5) * 12))%Z).
  { intros H. rewrite <- (Math_round_inject_Z 48). apply Math_round_mono.
    change (inject_Z 48) with 48. lra. }
  assert (E0 : d < 9 -> (JS.Math_round ((d - 8) * 0.5) <= 0)%Z).
  { intros H. pose proof (Math_round_nearest ((d - 8) * 0.5)) as [Hlo _].
    assert (Hlt : inject_Z (JS.Math_round ((d - 8) * 0.5)) < inject_Z 1).
    { change (inject_Z 1) with 1.
      pose proof (Qlt_floor ((d - 8) * 0.5 + (1 # 2))) as Hf.
      unfold JS.Math_round in *.
      assert (Hc : Qfloor ((d - 8) * 0.5 + (1 # 2)) = Qfloor ((d - 8) * 0.5 + (1 # 2)))
        by reflexivity.
      pose proof (Qfloor_le ((d - 8) * 0.5 + (1 # 2))) as Hg.
      set (n := inject_Z (Qfloor ((d - 8) * 0.5 + (1 # 2)))) in *. lra. }
    rewrite <- Zlt_Qlt in Hlt. lia. }
  repeat split; repeat js_case; intros;
    first [ lia
          | apply Math_round_nonneg; lra
          | apply R900; lra
          | apply R48; destruct (Qlt_le_dec d 9) as [Hd | Hd];
            [specialize (E0 Hd); lia | exact Hd]
          | exfalso; lra ].
Qed.

(** ** Fishing-activity index: factor tables *)

Ltac status_score :=
  cbn [factorStatus score orb andb];
  split; [| split; [| split]];
  [ split; intros H; first [reflexivity | discriminate H | lia]
  | split; intros H; first [reflexivity | discriminate H | lia]
  | split; intros H; first [reflexivity | discriminate H | lia]
  | lia ].

(** X14: in all five factor tables the status goes with the score: positive
    from 75 up, negative up to 40, neutral between; every sub-score lies
    between 30 and 95. *)
Theorem factors_status_matches_score (ts : Q -> string)
    (current : CurrentWeather) (waterTemp : Q) (moonPhase : MoonInfo)
    (solunar : Solunar) :
  Forall (fun f =>
            (factorStatus f = positive <-> (75 <= score f)%Z) /\
            (factorStatus f = negative <-> (score f <= 40)%Z) /\
            (factorStatus f = neutral <-> (40 < score f < 75)%Z) /\
            (30 <= score f <= 95)%Z)
         (factors (scoreConditions ts current waterTemp moonPhase solunar)).
Proof.
  assert (E : factors (scoreConditions ts current waterTemp moonPhase solunar) =
              [pressureFactor (pressure_msl current * 0.02953);
               tempFactor ts waterTemp;
               windFactor (wind_speed_10m current);
               moonFactor moonPhase;
               cloudFactor ts (cloud_cover current)]) by reflexivity.
  rewrite E. clear E.
  apply Forall_cons; [| apply Forall_cons; [| apply Forall_cons;
    [| apply Forall_cons; [| apply Forall_cons; [| apply Forall_nil]]]]].
  - unfold pressureFactor. repeat js_case; status_score.
  - unfold tempFactor. repeat js_case; status_score.
  - unfold windFactor. repeat js_case; status_score.
  - unfold moonFactor.
    destruct (String.eqb (phase moonPhase) "New Moon"),
      (String.eqb (phase moonPhase) "Full Moon"),
      (String.eqb (phase moonPhase) "First Quarter"),
      (String.eqb (phase moonPhase) "Last Quarter"); status_score.
  - unfold cloudFactor. repeat js_case; status_score.
Qed.

Lemma pressureFactor_score_range (pressure : Q) :
  (40 <= score (pressureFactor pressure) <= 90)%Z.
Proof. unfold pressureFactor. repeat js_case; cbn; lia. Qed.

Lemma tempFactor_score_range (ts : Q -> string) (waterTemp : Q) :
  (35 <= score (tempFactor ts waterTemp) <= 95)%Z.
Proof. unfold tempFactor. repeat js_case; cbn; lia. Qed.

Lemma windFactor_score_range (wind : Q) :
  (30 <= score (windFactor wind) <= 85)%Z.
Proof. unfold windFactor. repeat js_case; cbn; lia. Qed.

Lemma moonFactor_score_range (moonPhase : MoonInfo) :
  (55 <= score (moonFactor moonPhase) <= 90)%Z.
Proof.
  unfold moonFactor.
  destruct (String.eqb (phase moonPhase) "New Moon"),
    (String.eqb (phase moonPhase) "Full Moon"),
    (String.eqb (phase moonPhase) "First Quarter"),
    (String.eqb (phase moonPhase) "Last Quarter"); cbn; lia.
Qed.

Lemma cloudFactor_score_range (ts : Q -> string) (clouds : Q) :
  (55 <= score (cloudFactor ts clouds) <= 85)%Z.
Proof. unfold cloudFactor. repeat js_case; cbn; lia. Qed.

Lemma overallScore_fifth (ts : Q -> string) (current : CurrentWeather)
    (waterTemp : Q) (moonPhase : MoonInfo) (solunar : Solunar) :
  (5 * overallScore (scoreConditions ts current waterTemp moonPhase solunar) =
   score (pressureFactor (pressure_msl current * 0.02953))
   + score (tempFactor ts waterTemp)
   + score (windFactor (wind_speed_10m current))
   + score (moonFactor moonPhase)
   + score (cloudFactor ts (cloud_cover current)))%Z.
Proof.
  set (total := (score (pressureFactor (pressure_msl current * 0.02953))
                 + score (tempFactor ts waterTemp)
                 + score (windFactor (wind_speed_10m current))
                 + score (moonFactor moonPhase)
                 + score (cloudFactor ts (cloud_cover current)))%Z).
  assert (Hs : overallScore (scoreConditions ts current waterTemp moonPhase solunar)
               = JS.Math_round (inject_Z total / 5)) by reflexivity.
  assert (Hm : (total mod 5 = 0)%Z).
  { pose proof (pressureFactor_score_mod5 (pressure_msl current * 0.02953)).
    pose proof (tempFactor_score_mod5 ts waterTemp).
    pose proof (windFactor_score_mod5 (wind_speed_10m current)).
    pose proof (moonFactor_score_mod5 moonPhase).
    pose proof (cloudFactor_score_mod5 ts (cloud_cover current)).
    unfold total. Z.div_mod_to_equations. lia. }
  pose proof (Math_round_fifth total Hm) as Hq. rewrite <- Hs in Hq.
  assert (Hz : inject_Z (5 * overallScore (scoreConditions ts current waterTemp moonPhase solunar))
               == inject_Z total).
  { rewrite inject_Z_mult. change (inject_Z 5) with 5. rewrite Hq. field. }
  apply (proj1 (inject_Z_injective _ _)). exact Hz.
Qed.

(** X15: the overall score always lies between 43 and 89, within the 0 to 100
    of the gauge: the index never rates below 43, and a score of 90 or
    more cannot occur. *)
Theorem overallScore_range (ts : Q -> string) (current : CurrentWeather)
    (waterTemp : Q) (moonPhase : MoonInfo) (solunar : Solunar) :
  (43 <= overallScore (scoreConditions ts current waterTemp moonPhase solunar) <= 89)%Z.
Proof.
  pose proof (overallScore_fifth ts current waterTemp moonPhase solunar).
  pose proof (pressureFactor_score_range (pressure_msl current * 0.02953)).
  pose proof (tempFactor_score_range ts waterTemp).
  pose proof (windFactor_score_range (wind_speed_10m current)).
  pose proof (moonFactor_score_range moonPhase).
  pose proof (cloudFactor_score_range ts (cloud_cover current)).
  lia.
Qed.

(** X16: when the [waterTemp] prop is left out, the default of 68 degrees puts
    the water-temperature factor at its best: a run that gets a weather
    reading stores an overall score of 55 or more, never rates Poor, and
    always gives the topwater tip. *)
Theorem calculateConditions_default_waterTemp (tz : Z) (ts : Q -> string)
    (props : FishActivityIndexProps) (env : Env) (cur : CurrentWeather)
    (s : State) :
  propWaterTemp props = None ->
  upstream env = Resolved (Body (JsonObject (Some cur))) ->
  exists c : FishingConditions,
    conditions (snd (calculateConditions tz ts props env s)) = Some c /\
    (55 <= overallScore c)%Z /\
    rating c <> Poor /\
    In "Topwater lures effective in early morning"%string (tips c).
Proof.
  intros Hw Hup.
  rewrite (calculateConditions_success tz ts props env cur s Hup), Hw. cbn [snd conditions].
  eexists. split; [reflexivity |].
  set (moon := getMoonPhase tz (clock1 env)).
  set (sol := getSolunarPeriods tz (clock2 env) (propLat props)).
  assert (Hov : (55 <= overallScore (scoreConditions ts cur 68 moon sol))%Z).
  { pose proof (overallScore_fifth ts cur 68 moon sol) as H5.
    pose proof (pressureFactor_score_range (pressure_msl cur * 0.02953)).
    assert (Ht : score (tempFactor ts 68) = 95%Z) by reflexivity.
    pose proof (windFactor_score_range (wind_speed_10m cur)).
    pose proof (moonFactor_score_range moon).
    pose proof (cloudFactor_score_range ts (cloud_cover cur)).
    lia. }
  split; [exact Hov |]. split.
  - pose proof (ratingOf_buckets (overallScore (scoreConditions ts cur 68 moon sol)))
      as (_ & _ & _ & HP).
    intros Hr. apply HP in Hr. lia.
  - unfold scoreConditions. cbn [tips]. unfold generateTips.
    destruct ((wind_speed_10m cur >=? 5) && (wind_speed_10m cur <=? 15)),
      ((pressure_msl cur * 0.02953 >=? 29.8) && (pressure_msl cur * 0.02953 <=? 30.0)),
      (String.eqb (phase moon) "Full Moon" || String.eqb (phase moon) "New Moon"),
      (cloud_cover cur >=? 50);
      cbn; tauto.
Qed.

Lemma calculateConditions_default_waterTemp_witness :
  let cur := {| temperature_2m := 40; pressure_msl := 990; wind_speed_10m := 40;
                cloud_cover := 10; precipitation := 0 |} in
  let env := {| upstream := Resolved (Body (JsonObject (Some cur)));
                clock1 := 1762128000000; clock2 := 1762128000000 |} in
  let props := {| propLat := 34.6619; propLng := -95.3890; propWaterTemp := None |} in
  propWaterTemp props = None /\
  exists c : FishingConditions,
    conditions (snd (calculateConditions 360 (fun _ => EmptyString) props env initialState))
      = Some c /\
    (55 <= overallScore c)%Z /\
    rating c <> Poor /\
    In "Topwater lures effective in early morning"%string (tips c).
Proof.
  intros cur env props. split; [reflexivity |].
  apply (calculateConditions_default_waterTemp 360 (fun _ => EmptyString)
           props env cur initialState); reflexivity.
Defined.

(** X18: the tips kept in the conditions are one to five, all different, and
    the default tip never comes with another. *)
Theorem generateTips_distinct (wind waterTemp pressure : Q) (moonPhase : MoonInfo)
    (clouds : Q) :
  let tips := generateTips wind waterTemp pressure moonPhase clouds in
  NoDup tips /\
  (1 <= List.length tips <= 5)%nat /\
  (In "Fish structure and cover in deeper water"%string tips ->
   tips = ["Fish structure and cover in deeper water"%string]).
Proof.
  cbv zeta. unfold generateTips.
  destruct ((wind >=? 5) && (wind <=? 15)),
    ((waterTemp >=? 65) && (waterTemp <=? 75)),
    ((pressure >=? 29.8) && (pressure <=? 30.0)),
    (String.eqb (phase moonPhase) "Full Moon" || String.eqb (phase moonPhase) "New Moon"),
    (clouds >=? 50);
    cbn; (split; [| split; [lia |]]).
  all: first [ solve [repeat (constructor; [cbn; intuition discriminate |]); constructor]
             | solve [cbn; intuition discriminate] ].
Qed.

(** ** Solunar periods *)


(** ** Moon illumination *)

(** Arithmetic with a division by a constant: the inverse is computed
    first. *)
Ltac qlra :=
  unfold Qdiv in *;
  repeat match goal with
  | |- context [Qinv ?c] =>
      let v := eval vm_compute in (Qinv c) in change (Qinv c) with v
  | H : context [Qinv ?c] |- _ =>
      let v := eval vm_compute in (Qinv c) in change (Qinv c) with v in H
  end;
  lra.

Lemma Math_round_quarter (t : Q) :
  0 <= t -> t <= 25 -> (0 <= JS.Math_round t <= 25)%Z.
Proof.
  intros H0 H25. split.
  - apply Math_round_nonneg. lra.
  - rewrite <- (Math_round_inject_Z 25). apply Math_round_mono.
    change (inject_Z 25) with 25. exact H25.
Qed.

(** The rounded quarter steps met in a goal, bounded where the branch
    conditions allow it. *)
Ltac round_bounds :=
  repeat match goal with
  | |- context [JS.Math_round ?t] =>
      lazymatch goal with
      | H : (0 <= JS.Math_round t <= 25)%Z |- _ => fail
      | _ => assert (0 <= JS.Math_round t <= 25)%Z
               by (apply Math_round_quarter; qlra)
      end
  end.

(** X21: for every lunar day [getMoonData] gives one of the eight phase names
    and an illumination between 0 and 100 that fits the phase: 0 at new
    moon, 50 at the quarters, 100 at full moon, 0 to 25 for the waxing
    crescent, 50 to 75 for the waxing gibbous, 75 to 100 for the waning
    gibbous and 25 to 50 for the waning crescent. *)
Theorem getMoonData_bucket_illumination (lunarDay : Q) :
  let m := getMoonData_bucket lunarDay in
  (0 <= illumination m <= 100)%Z /\
  ((phase m = "New Moon"%string /\ illumination m = 0%Z) \/
   (phase m = "Waxing Crescent"%string /\ (0 <= illumination m <= 25)%Z) \/
   (phase m = "First Quarter"%string /\ illumination m = 50%Z) \/
   (phase m = "Waxing Gibbous"%string /\ (50 <= illumination m <= 75)%Z) \/
   (phase m = "Full Moon"%string /\ illumination m = 100%Z) \/
   (phase m = "Waning Gibbous"%string /\ (75 <= illumination m <= 100)%Z) \/
   (phase m = "Last Quarter"%string /\ illumination m = 50%Z) \/
   (phase m = "Waning Crescent"%string /\ (25 <= illumination m <= 50)%Z)).
Proof.
  cbv zeta. unfold getMoonData_bucket.
  repeat js_case; cbn [illumination phase]; round_bounds; split; try lia.
  - left. split; [reflexivity | lia].
  - right; left. split; [reflexivity | lia].
  - do 2 right; left. split; [reflexivity | lia].
  - do 3 right; left. split; [reflexivity | lia].
  - do 4 right; left. split; [reflexivity | lia].
  - do 5 right; left. split; [reflexivity | lia].
  - do 6 right; left. split; [reflexivity | lia].
  - do 7 right. split; [reflexivity | lia].
  - left. split; [reflexivity | lia].
Qed.

(** X22: the illumination of [getMoonData] never decreases from new moon up to
    full moon, and never increases from the waxing gibbous moon on. *)
Theorem getMoonData_bucket_waxing_waning (a b : Q) :
  a <= b ->
  (b < 16.61 ->
   (illumination (getMoonData_bucket a) <= illumination (getMoonData_bucket b))%Z) /\
  (12.91 <= a ->
   (illumination (getMoonData_bucket b) <= illumination (getMoonData_bucket a))%Z).
Proof.
  intros Hab.
  assert (M1 : (JS.Math_round ((a - 1.85) / 3.68 * 25)
                <= JS.Math_round ((b - 1.85) / 3.68 * 25))%Z)
    by (apply Math_round_mono; qlra).
  assert (M2 : (JS.Math_round ((a - 9.22) / 3.69 * 25)
                <= JS.Math_round ((b - 9.22) / 3.69 * 25))%Z)
    by (apply Math_round_mono; qlra).
  assert (M3 : (JS.Math_round ((a - 16.61) / 3.69 * 25)
                <= JS.Math_round ((b - 16.61) / 3.69 * 25))%Z)
    by (apply Math_round_mono; qlra).
  assert (M4 : (JS.Math_round ((a - 23.99) / 3.69 * 25)
                <= JS.Math_round ((b - 23.99) / 3.69 * 25))%Z)
    by (apply Math_round_mono; qlra).
  unfold getMoonData_bucket.
  split; intros Hside; repeat js_case; cbn [illumination];
    first [ exfalso; lra | round_bounds; lia ].
Qed.

(** Three and six days into the lunation. *)
Lemma getMoonData_bucket_waxing_waning_witness :
  3 <= 6 /\
  (illumination (getMoonData_bucket 3) <= illumination (getMoonData_bucket 6))%Z.
Proof.
  split.
  - lra.
  - apply (getMoonData_bucket_waxing_waning 3 6); lra.
Defined.

(** ** The water-level panel *)

(** X23: the simulated reading stays within its range: with the two random
    numbers in [0, 1) the level lies in [598.17, 598.67) and the change in
    [-0.2, 0.2); for a normal pool between 598.67 and 603.17 ft (Sardis
    Lake: 599) the simulated status is always normal. *)
Theorem simulatedWaterLevel_range (normalPool random1 random2 : Q) (now : string) :
  0 <= random1 < 1 -> 0 <= random2 < 1 ->
  let w := simulatedWaterLevel normalPool random1 random2 now in
  598.17 <= levelValue w < 598.67 /\
  - 0.2 <= change24h w < 0.2 /\
  (598.67 <= normalPool <= 603.17 -> levelStatus w = levelNormal).
Proof.
  intros H1 H2. cbv zeta. unfold simulatedWaterLevel.
  cbn [levelValue change24h levelStatus].
  repeat split; try lra.
  intros Hnp. repeat js_case; first [reflexivity | exfalso; lra].
Qed.

Lemma simulatedWaterLevel_range_witness :
  let w := simulatedWaterLevel (normalPoolElevation SARDIS_LAKE_DATA) 0.5 0.9 "" in
  (0 <= 0.5 < 1) /\ (0 <= 0.9 < 1) /\
  levelValue w == 598.42 /\ levelStatus w = levelNormal /\ levelTrend w = rising.
Proof.
  intros w.
  destruct (simulatedWaterLevel_range (normalPoolElevation SARDIS_LAKE_DATA) 0.5 0.9 "")
    as (_ & _ & Hs); [lra | lra |].
  repeat split; try lra; try reflexivity.
Defined.

(** X24: a reply with at least one reading: both variants of the panel
    store the level computed from it and no error; the level is the last
    reading and the 24-hour change the last reading minus the first; a
    level the panel calls low (more than 10 ft under the normal pool)
    always shows the low-water advisory of the ramp panel (more than 5 ft
    under it); a lone reading gives a stable trend.  A reply with an empty
    array makes the [try] block throw: the proxy variant then stores
    [null] and the message of the error, the direct variant the simulated
    reading. *)
Theorem waterLevelOf_low_and_change (normalPool : Q) (first : Reading)
    (rest : list Reading) (message now : string) (random1 random2 : Q) :
  exists w : WaterLevelData,
    proxyWaterData normalPool (first :: rest) message = (Some w, None) /\
    directWaterData normalPool (first :: rest) random1 random2 now = (Some w, None) /\
    levelValue w = readingValue (last rest first) /\
    change24h w == readingValue (last rest first) - readingValue first /\
    (levelStatus w = levelLow -> lowWaterAdvisory (levelValue w) normalPool = true) /\
    (rest = [] -> levelTrend w = stable) /\
    proxyWaterData normalPool [] message = (None, Some message) /\
    directWaterData normalPool [] random1 random2 now =
      (Some (simulatedWaterLevel normalPool random1 random2 now), None).
Proof.
  assert (Hlast : last (first :: rest) first = last rest first).
  { destruct rest as [| r rest]; [reflexivity |].
    change (last (first :: r :: rest) first) with (last (r :: rest) first).
    clear. revert r. induction rest as [| x rest IH]; intros r; [reflexivity |].
    change (last (r :: x :: rest) first) with (last (x :: rest) first). apply IH. }
  eexists. split; [reflexivity |]. split; [reflexivity |].
  cbn [levelValue change24h levelStatus levelTrend].
  rewrite Hlast.
  split; [reflexivity |]. split.
  - destruct rest as [| r rest]; [cbn; ring |].
    assert (Hn : (1 <? Z.of_nat (List.length (first :: r :: rest)))%Z = true)
      by (apply Z.ltb_lt; cbn [List.length]; lia).
    rewrite Hn. reflexivity.
  - split; [| split; [| split; reflexivity]].
    + unfold lowWaterAdvisory.
      repeat js_case; intros H; first [reflexivity | discriminate H | exfalso; lra].
    + intros ->. cbn. repeat js_case; first [reflexivity | exfalso; lra].
Qed.

(** ** The water-level chart: statistics *)

Lemma Math_min_le (x y : Q) : Math_min x y <= x /\ Math_min x y <= y.
Proof. unfold Math_min. js_case; lra. Qed.

Lemma Math_max_ge (x y : Q) : x <= Math_max x y /\ y <= Math_max x y.
Proof. unfold Math_max. js_case; lra. Qed.

Lemma Math_min_list_le (x : Q) (l : list Q) :
  Math_min_list x l <= x /\ forall v, In v l -> Math_min_list x l <= v.
Proof.
  unfold Math_min_list. revert x. induction l as [| y l IH]; intros x; cbn.
  - split; [lra | contradiction].
  - destruct (IH (Math_min x y)) as [H1 H2]. pose proof (Math_min_le x y) as [Hx Hy].
    split; [lra |]. intros v [<- | Hv]; [lra | now apply H2].
Qed.

Lemma Math_max_list_ge (x : Q) (l : list Q) :
  x <= Math_max_list x l /\ forall v, In v l -> v <= Math_max_list x l.
Proof.
  unfold Math_max_list. revert x. induction l as [| y l IH]; intros x; cbn.
  - split; [lra | contradiction].
  - destruct (IH (Math_max x y)) as [H1 H2]. pose proof (Math_max_ge x y) as [Hx Hy].
    split; [lra |]. intros v [<- | Hv]; [lra | now apply H2].
Qed.

Lemma Math_min_list_In (x : Q) (l : list Q) : In (Math_min_list x l) (x :: l).
Proof.
  unfold Math_min_list. revert x. induction l as [| y l IH]; intros x; cbn.
  - now left.
  - destruct (IH (Math_min x y)) as [H | H].
    + unfold Math_min in H at 1. destruct (y <? x); [right; left | left]; exact H.
    + right; right; exact H.
Qed.

Lemma Math_max_list_In (x : Q) (l : list Q) : In (Math_max_list x l) (x :: l).
Proof.
  unfold Math_max_list. revert x. induction l as [| y l IH]; intros x; cbn.
  - now left.
  - destruct (IH (Math_max x y)) as [H | H].
    + unfold Math_max in H at 1. destruct (x <? y); [right; left | left]; exact H.
    + right; right; exact H.
Qed.

Lemma last_In {A : Type} (l : list A) (d : A) : In (last l d) (d :: l).
Proof.
  induction l as [| x l IH]; [now left |].
  destruct l as [| y l]; [right; now left |].
  change (last (x :: y :: l) d) with (last (y :: l) d).
  destruct IH as [H | H]; [now left | right; right; exact H].
Qed.

(** X25: the statistics of a chart with at least one value: the minimum
    and the maximum are values of the chart and bound every value; the
    current value is the last one and lies between them; the change is
    the difference, as the host computes it, of the last value and the
    first. *)
Theorem chartStats_bounds (add div sub : Q -> Q -> Q) (first : Q) (rest : list Q) :
  exists s : ChartStats,
    chartStats add div sub (first :: rest) = Some s /\
    In (statMin s) (first :: rest) /\
    In (statMax s) (first :: rest) /\
    (forall v, In v (first :: rest) -> statMin s <= v <= statMax s) /\
    statCurrent s = last rest first /\
    statMin s <= statCurrent s <= statMax s /\
    statChange s = sub (last rest first) first.
Proof.
  eexists. split; [reflexivity |].
  cbn [statMin statMax statAvg statCurrent statChange].
  pose proof (Math_min_list_le first rest) as [Hm1 Hm2].
  pose proof (Math_max_list_ge first rest) as [HM1 HM2].
  assert (Hall : forall v, In v (first :: rest) ->
                   Math_min_list first rest <= v <= Math_max_list first rest).
  { intros v [<- | Hv]; [split; assumption | split; [now apply Hm2 | now apply HM2]]. }
  assert (Hlast : last (first :: rest) first = last rest first).
  { destruct rest as [| r rest]; [reflexivity |].
    change (last (first :: r :: rest) first) with (last (r :: rest) first).
    clear. revert r. induction rest as [| x rest IH]; intros r; [reflexivity |].
    change (last (r :: x :: rest) first) with (last (x :: rest) first). apply IH. }
  rewrite Hlast.
  split; [apply Math_min_list_In |]. split; [apply Math_max_list_In |].
  split; [exact Hall |]. split; [reflexivity |]. split; [| reflexivity].
  apply Hall. apply last_In.
Qed.

(** ** The water-level chart: the vertical scale *)

(** X26: with at least one value to draw, every value is drawn inside the plot
    area (between y = 10 and y = 100); the normal-pool line never falls
    below the plot area, the flood-stage line never rises above it, so the
    guard of the flood-stage line always holds. *)
Theorem yScale_inside_plot (first : Q) (rest : list Q) (normalPool floodStage : Q) :
  let values := first :: rest in
  (forall v, In v values -> 10 <= yScale values normalPool floodStage v <= 100) /\
  yScale values normalPool floodStage normalPool <= 100 /\
  10 <= yScale values normalPool floodStage floodStage /\
  floodLineShown values normalPool floodStage = true.
Proof.
  intros values.
  pose proof (Math_min_list_le (normalPool - 5) values) as [Hm1 Hm2].
  pose proof (Math_max_list_ge floodStage values) as [HM1 HM2].
  fold (chartMinVal values normalPool) in Hm1, Hm2.
  fold (chartMaxVal values floodStage) in HM1, HM2.
  assert (Hfirst : chartMinVal values normalPool <= first <= chartMaxVal values floodStage).
  { split; [apply Hm2 | apply HM2]; now left. }
  assert (Hr : 0 < chartRange values normalPool floodStage /\
               chartMaxVal values floodStage - chartMinVal values normalPool
               <= chartRange values normalPool floodStage).
  { unfold chartRange. cbv zeta.
    destruct (Qeq_bool (chartMaxVal values floodStage - chartMinVal values normalPool) 0)
      eqn:E; [apply Qeq_bool_eq in E | apply Qeq_bool_neq in E]; split; lra. }
  destruct Hr as [Hpos Hrange].
  assert (Hy : forall val,
             yScale values normalPool floodStage val ==
             100 - ((val - chartMinVal values normalPool)
                    / chartRange values normalPool floodStage) * 90).
  { intros val. unfold yScale, chartHeight. ring. }
  assert (Hfrac_hi : forall val, val <= chartMaxVal values floodStage ->
             (val - chartMinVal values normalPool)
             / chartRange values normalPool floodStage <= 1).
  { intros val Hv. apply Qle_shift_div_r; [exact Hpos | lra]. }
  assert (Hfrac_lo : forall val, chartMinVal values normalPool <= val ->
             0 <= (val - chartMinVal values normalPool)
                  / chartRange values normalPool floodStage).
  { intros val Hv. apply Qle_shift_div_l; [exact Hpos | lra]. }
  assert (Hflood : 10 <= yScale values normalPool floodStage floodStage).
  { rewrite Hy. pose proof (Hfrac_hi floodStage HM1) as H.
    set (t := (floodStage - chartMinVal values normalPool)
              / chartRange values normalPool floodStage) in *. lra. }
  split; [| split; [| split]].
  - intros v Hv. rewrite Hy.
    pose proof (Hfrac_hi v (HM2 v Hv)) as H1. pose proof (Hfrac_lo v (Hm2 v Hv)) as H0.
    set (t := (v - chartMinVal values normalPool)
              / chartRange values normalPool floodStage) in *. lra.
  - rewrite Hy. assert (Hnp : chartMinVal values normalPool <= normalPool) by lra.
    pose proof (Hfrac_lo normalPool Hnp) as H0.
    set (t := (normalPool - chartMinVal values normalPool)
              / chartRange values normalPool floodStage) in *. lra.
  - exact Hflood.
  - unfold floodLineShown. apply geb_iff. exact Hflood.
Qed.

(** ** The water-level chart: sampling *)

Lemma filter_combine_seq_length {A : Type} (f : nat -> bool) (l : list A) (s : nat) :
  List.length (filter (fun p => f (fst p)) (combine (seq s (List.length l)) l)) =
  List.length (filter f (seq s (List.length l))).
Proof.
  revert s. induction l as [| x l IH]; intros s; [reflexivity |].
  cbn [List.length seq combine filter fst].
  destruct (f s); cbn [List.length]; rewrite IH; reflexivity.
Qed.

(** Of the indices below [n], those that are multiples of [r]: the last
    one kept is the greatest multiple of [r] below [n]. *)
Lemma multiples_count (r : Z) (n : nat) :
  (1 <= r)%Z ->
  let k := Z.of_nat (List.length
             (filter (fun i => (Z.rem (Z.of_nat i) r =? 0)%Z) (seq 0 n))) in
  (n = 0%nat /\ k = 0%Z) \/
  ((1 <= Z.of_nat n)%Z /\ (1 <= k)%Z /\
   ((k - 1) * r <= Z.of_nat n - 1)%Z /\ (Z.of_nat n - 1 < k * r)%Z).
Proof.
  intros Hr. induction n as [| n IH]; [left; split; reflexivity |].
  right. cbv zeta in *. rewrite seq_S, filter_app, length_app. cbn [plus filter].
  set (k := Z.of_nat (List.length
              (filter (fun i => (Z.rem (Z.of_nat i) r =? 0)%Z) (seq 0 n)))) in *.
  rewrite Z.rem_mod_nonneg by lia.
  rewrite Nat2Z.inj_add, Nat2Z.inj_succ. fold k.
  pose proof (Z.div_mod (Z.of_nat n) r ltac:(lia)) as Hdm.
  pose proof (Z.mod_pos_bound (Z.of_nat n) r ltac:(lia)) as Hmb.
  set (len := Z.of_nat (List.length
                (if (Z.of_nat n mod r =? 0)%Z then [n] else []))).
  assert (Hlen : ((Z.of_nat n mod r = 0 /\ len = 1) \/
                  (Z.of_nat n mod r <> 0 /\ len = 0))%Z).
  { unfold len. destruct (Z.eqb_spec (Z.of_nat n mod r) 0); [left | right];
      split; try assumption; reflexivity. }
  clearbody len.
  set (q := (Z.of_nat n / r)%Z) in *. set (m := (Z.of_nat n mod r)%Z) in *.
  assert (Hn0 : (0 <= Z.of_nat n)%Z) by lia.
  assert (IH' : (Z.of_nat n = 0 /\ k = 0)%Z \/
                ((1 <= Z.of_nat n)%Z /\ (1 <= k)%Z /\
                 ((k - 1) * r <= Z.of_nat n - 1)%Z /\ (Z.of_nat n - 1 < k * r)%Z)).
  { destruct IH as [[-> Hk] | H]; [left; split; [reflexivity | exact Hk] | right; exact H]. }
  clear IH. clearbody k q m. set (z := Z.of_nat n) in *. clearbody z.
  unfold Z.succ.
  destruct Hlen as [[Hm ->] | [Hm ->]], IH' as [[Hz Hk] | (Hn & Hk & Hlo & Hhi)].
  - subst k. repeat split; lia.
  - assert (Hkq : (k <= q)%Z) by nia.
    assert (Hkr : (k * r <= q * r)%Z) by (apply Z.mul_le_mono_nonneg_r; lia).
    repeat split; lia.
  - exfalso. assert (Hq : (q <= -1 \/ q = 0 \/ 1 <= q)%Z) by lia.
    destruct Hq as [Hq | [Hq | Hq]]; nia.
  - assert (Hqk : (q + 1 <= k)%Z) by nia.
    assert (Hkr : ((q + 1) * r <= k * r)%Z) by (apply Z.mul_le_mono_nonneg_r; lia).
    repeat split; lia.
Qed.

Lemma sampleRate_spec (n : nat) :
  (1 <= sampleRate n)%Z /\ (Z.of_nat n <= 100 * sampleRate n + 99)%Z /\
  (Z.of_nat n < 200 -> sampleRate n = 1)%Z.
Proof.
  unfold sampleRate, JS.Math_floor.
  change 100 with (inject_Z 100). rewrite <- Zdiv_Qdiv.
  pose proof (Z.div_mod (Z.of_nat n) 100 ltac:(lia)) as Hdm.
  pose proof (Z.mod_pos_bound (Z.of_nat n) 100 ltac:(lia)) as Hmb.
  repeat split; lia.
Qed.

Lemma combine_seq_snd {A : Type} (l : list A) (s : nat) :
  map snd (combine (seq s (List.length l)) l) = l.
Proof.
  revert s. induction l as [| x l IH]; intros s; [reflexivity |].
  cbn. now rewrite IH.
Qed.

Lemma filter_all_true {A : Type} (f : A -> bool) (l : list A) :
  (forall x, f x = true) -> filter f l = l.
Proof.
  intros H. induction l as [| x l IH]; [reflexivity |].
  cbn. now rewrite H, IH.
Qed.

(** X27: sampling keeps the first value and at most 199 values in all; fewer
    than 200 values are kept as they are. *)
Theorem sampleValues_size {A : Type} (values : list A) :
  (List.length (sampleValues values) <= 199)%nat /\
  (List.length (sampleValues values) <= List.length values)%nat /\
  ((List.length values < 200)%nat -> sampleValues values = values) /\
  hd_error (sampleValues values) = hd_error values.
Proof.
  unfold sampleValues. cbv zeta.
  pose proof (sampleRate_spec (List.length values)) as (Hr1 & Hr2 & Hr3).
  set (r := sampleRate (List.length values)) in *.
  rewrite !length_map.
  rewrite (filter_combine_seq_length (fun i => (Z.rem (Z.of_nat i) r =? 0)%Z) values 0).
  pose proof (multiples_count r (List.length values) Hr1) as Hk. cbv zeta in Hk.
  pose proof (filter_length_le (fun i => (Z.rem (Z.of_nat i) r =? 0)%Z)
                (seq 0 (List.length values))) as Hle.
  rewrite length_seq in Hle.
  set (k := List.length (filter (fun i => (Z.rem (Z.of_nat i) r =? 0)%Z)
                           (seq 0 (List.length values)))) in *.
  split; [| split; [exact Hle | split]].
  - destruct Hk as [[_ Hk] | (Hn & Hk & Hlo & Hhi)]; [lia | nia].
  - intros Hn. rewrite Hr3 by lia.
    rewrite filter_all_true; [apply combine_seq_snd |].
    intros p. apply Z.eqb_eq. apply Z.rem_1_r.
  - destruct values as [| x values]; [reflexivity |].
    cbn [List.length seq combine filter fst Z.of_nat].
    rewrite Z.rem_0_l by lia. reflexivity.
Qed.

(** ** Lake boundary: closing a ring *)

Lemma last_snoc {A : Type} (l : list A) (x d : A) : last (l ++ [x]) d = x.
Proof.
  induction l as [| y l IH]; [reflexivity |].
  cbn [app]. destruct (l ++ [x]) as [| z t] eqn:E; [destruct l; discriminate |].
  change (last (y :: z :: t) d) with (last (z :: t) d). exact IH.
Qed.

Lemma closeRing_spec (ring : list Point) :
  closed_ring (closeRing ring) /\
  (forall p, In p (closeRing ring) <-> In p ring) /\
  (List.length ring <= List.length (closeRing ring) <= List.length ring + 1)%nat /\
  (ring <> [] -> closeRing ring <> []).
Proof.
  destruct ring as [| first ring]; [cbn; repeat split; try tauto; lia |].
  unfold closeRing.
  destruct (negb (Qeq_bool (fst first) (fst (last (first :: ring) first)))
            || negb (Qeq_bool (snd first) (snd (last (first :: ring) first)))) eqn:E.
  - split; [| split; [| split]].
    + unfold closed_ring. change ((first :: ring) ++ [first]) with (first :: (ring ++ [first])).
      change (first :: (ring ++ [first])) with ((first :: ring) ++ [first]) at 1.
      cbn [app]. change (first :: ring ++ [first]) with ((first :: ring) ++ [first]).
      rewrite last_snoc. split; reflexivity.
    + intros p. rewrite in_app_iff. cbn [In]. intuition (subst; auto).
    + rewrite length_app. cbn [List.length]. lia.
    + intros _. discriminate.
  - apply orb_false_iff in E. destruct E as [E1 E2].
    apply negb_false_iff in E1, E2. apply Qeq_bool_eq in E1, E2.
    split; [| split; [| split]].
    + unfold closed_ring. split; assumption.
    + tauto.
    + lia.
    + tauto.
Qed.

(** Closing a ring twice changes nothing more. *)
Lemma closeRing_idempotent (ring : list Point) :
  closeRing (closeRing ring) = closeRing ring.
Proof.
  pose proof (closeRing_spec ring) as (Hc & _).
  destruct (closeRing ring) as [| first rest] eqn:E; [reflexivity |].
  unfold closed_ring in Hc. destruct Hc as [H1 H2].
  unfold closeRing at 1.
  apply Qeq_eq_bool in H1, H2. rewrite H1, H2. reflexivity.
Qed.

(** ** Lake boundary: merging rings *)

Lemma In_tl {A : Type} (l : list A) (x : A) : In x (tl l) -> In x l.
Proof. destruct l; cbn; [tauto | auto]. Qed.

Lemma In_removelast {A : Type} (l : list A) (x : A) : In x (removelast l) -> In x l.
Proof.
  induction l as [| y l IH]; [tauto |].
  destruct l as [| z l]; [cbn; tauto |].
  change (removelast (y :: z :: l)) with (y :: removelast (z :: l)).
  intros [<- | H]; [now left | right; now apply IH].
Qed.

Lemma length_tl_le {A : Type} (l : list A) : (List.length (tl l) <= List.length l)%nat.
Proof. destruct l; cbn; lia. Qed.

Lemma length_removelast_le {A : Type} (l : list A) :
  (List.length (removelast l) <= List.length l)%nat.
Proof.
  induction l as [| y l IH]; [cbn; lia |].
  destruct l as [| z l]; [cbn; lia |].
  change (removelast (y :: z :: l)) with (y :: removelast (z :: l)).
  cbn [List.length] in *. lia.
Qed.

(** What a pass that joins a ring leaves: the merged line keeps its
    points and gains points of one ring only, and that ring is taken out
    of the remaining ones. *)
Lemma mergePass_Joined (merged : list Point) (before rest : list (list Point))
    (merged' : list Point) (remaining' : list (list Point)) :
  mergePass merged before rest = Joined merged' remaining' ->
  exists (pre post : list (list Point)) (ring : list Point),
    rest = pre ++ ring :: post /\
    remaining' = before ++ pre ++ post /\
    merged <> [] /\ ring <> [] /\
    (forall p, In p merged -> In p merged') /\
    (forall p, In p merged' -> In p merged \/ In p ring) /\
    (List.length merged' <= List.length merged + List.length ring)%nat.
Proof.
  revert before. induction rest as [| ring after IH]; intros before; [discriminate |].
  cbn [mergePass].
  destruct merged as [| mergedStart mtail] eqn:Em; [discriminate |].
  destruct ring as [| ringStart rtail] eqn:Er; [discriminate |].
  rewrite <- Em, <- Er.
  assert (Hm : merged <> []) by (rewrite Em; discriminate).
  assert (Hr : ring <> []) by (rewrite Er; discriminate).
  pose proof (length_tl_le ring) as Lt.
  pose proof (length_removelast_le ring) as Lr.
  pose proof (length_tl_le (rev ring)) as Ltr.
  pose proof (length_removelast_le (rev ring)) as Lrr.
  rewrite length_rev in Ltr, Lrr.
  destruct (near (last merged mergedStart) ringStart);
    [| destruct (near mergedStart (last ring ringStart));
       [| destruct (near (last merged mergedStart) (last ring ringStart));
          [| destruct (near mergedStart ringStart)]]].
  1-4: intros [= <- <-]; exists [], after, ring;
       (split; [subst; reflexivity |]); (split; [reflexivity |]);
       (split; [exact Hm |]); (split; [exact Hr |]);
       (split; [intros p Hp; apply in_or_app; tauto |]);
       (split; [intros p Hp; apply in_app_or in Hp;
                destruct Hp as [Hp | Hp]; auto;
                right;
                first [ apply In_tl in Hp; first [exact Hp | apply in_rev; exact Hp]
                      | apply In_removelast in Hp;
                        first [exact Hp | apply in_rev; exact Hp] ] |]);
       rewrite length_app; lia.
  intros H. subst ring merged.
  destruct (IH _ H) as (pre & post & ring' & E1 & E2 & Hm' & Hr' & Hin1 & Hin2 & Hlen).
  exists ((ringStart :: rtail) :: pre), post, ring'.
  split; [rewrite E1; reflexivity |].
  split; [rewrite E2, <- !app_assoc; reflexivity |].
  repeat split; assumption.
Qed.

Lemma mergePass_total (merged : list Point) (before rest : list (list Point)) :
  merged <> [] -> (forall ring, In ring rest -> ring <> []) ->
  mergePass merged before rest <> Thrown.
Proof.
  intros Hm. revert before. induction rest as [| ring after IH]; intros before Hall;
    [discriminate |].
  cbn [mergePass].
  destruct merged as [| mergedStart mtail]; [contradiction |].
  destruct ring as [| ringStart rtail]; [exfalso; apply (Hall []); [now left | reflexivity] |].
  destruct (near _ _); [discriminate |].
  destruct (near _ _); [discriminate |].
  destruct (near _ _); [discriminate |].
  destruct (near _ _); [discriminate |].
  apply IH. intros r Hr. apply Hall. now right.
Qed.

(** With an empty ring among the rings still to visit, or nothing merged
    yet, a pass does not end quietly: it throws, or joins another ring and
    leaves the empty one. *)
Lemma mergePass_empty_ring (merged : list Point) (before rest : list (list Point)) :
  In [] rest ->
  match mergePass merged before rest with
  | Joined _ remaining' => In [] remaining'
  | Unchanged => False
  | Thrown => True
  end.
Proof.
  revert before. induction rest as [| ring after IH]; intros before Hin; [contradiction |].
  cbn [mergePass].
  destruct merged as [| mergedStart mtail]; [exact I |].
  destruct ring as [| ringStart rtail]; [exact I |].
  destruct Hin as [Hin | Hin]; [discriminate |].
  destruct (near _ _); [apply in_or_app; now right |].
  destruct (near _ _); [apply in_or_app; now right |].
  destruct (near _ _); [apply in_or_app; now right |].
  destruct (near _ _); [apply in_or_app; now right |].
  apply IH. exact Hin.
Qed.

Lemma mergePass_length (merged : list Point) (before rest : list (list Point))
    (merged' : list Point) (remaining' : list (list Point)) :
  mergePass merged before rest = Joined merged' remaining' ->
  S (List.length remaining') = (List.length before + List.length rest)%nat.
Proof.
  intros H. destruct (mergePass_Joined _ _ _ _ _ H) as (pre & post & ring & -> & -> & _).
  rewrite !length_app. cbn [List.length]. lia.
Qed.

(** The fuel of the loop is enough: any larger fuel gives the same
    result. *)
Lemma mergeLoop_fuel (fuel1 fuel2 : nat) (merged : list Point)
    (remaining : list (list Point)) :
  (List.length remaining <= fuel1)%nat -> (List.length remaining <= fuel2)%nat ->
  mergeLoop fuel1 merged remaining = mergeLoop fuel2 merged remaining.
Proof.
  revert fuel2 merged remaining.
  induction fuel1 as [| fuel1 IH]; intros fuel2 merged remaining H1 H2.
  - destruct remaining; [destruct fuel2; reflexivity | cbn in H1; lia].
  - destruct remaining as [| ring rest]; [destruct fuel2; reflexivity |].
    destruct fuel2 as [| fuel2]; [cbn in H2; lia |].
    cbn [mergeLoop].
    destruct (mergePass merged [] (ring :: rest)) as [m r | |] eqn:E; try reflexivity.
    apply mergePass_length in E. cbn [List.length] in *. apply IH; lia.
Qed.

Lemma total_points_app (a b : list (list Point)) :
  total_points (a ++ b) = (total_points a + total_points b)%nat.
Proof.
  unfold total_points. induction a as [| x a IH]; [reflexivity |].
  cbn [app fold_right]. rewrite IH. lia.
Qed.

Lemma mergeLoop_points (fuel : nat) (merged : list Point)
    (remaining : list (list Point)) :
  merged <> [] -> (forall ring, In ring remaining -> ring <> []) ->
  exists m : list Point,
    mergeLoop fuel merged remaining = Some m /\
    m <> [] /\
    (forall p, In p merged -> In p m) /\
    (forall p, In p m -> In p merged \/ exists ring, In ring remaining /\ In p ring) /\
    (List.length m <= List.length merged + total_points remaining)%nat.
Proof.
  revert merged remaining.
  induction fuel as [| fuel IH]; intros merged remaining Hm Hall.
  - exists merged. destruct remaining; cbn [mergeLoop]; repeat split; auto; lia.
  - destruct remaining as [| ring0 rest0].
    + exists merged. cbn [mergeLoop]. repeat split; auto; lia.
    + cbn [mergeLoop].
      destruct (mergePass merged [] (ring0 :: rest0)) as [m r | |] eqn:E.
      * destruct (mergePass_Joined _ _ _ _ _ E)
          as (pre & post & ring & Erest & Er & _ & Hring & Hin1 & Hin2 & Hlen).
        cbn [app] in Er.
        assert (Hm' : m <> []).
        { destruct merged as [| p0 ?]; [contradiction |].
          intros ->. apply (Hin1 p0). now left. }
        assert (Hall' : forall x, In x r -> x <> []).
        { intros x Hx. apply Hall. rewrite Erest. subst r.
          apply in_app_or in Hx. apply in_or_app.
          destruct Hx as [Hx | Hx]; [now left | right; now right]. }
        destruct (IH m r Hm' Hall') as (m2 & E2 & Hne & Hi1 & Hi2 & Hl2).
        exists m2. split; [exact E2 |]. split; [exact Hne |].
        split; [intros p Hp; apply Hi1, Hin1, Hp |]. split.
        -- intros p Hp. destruct (Hi2 p Hp) as [Hp' | (x & Hx & Hpx)].
           ++ destruct (Hin2 p Hp') as [H | H]; [now left |].
              right. exists ring. split; [| exact H].
              rewrite Erest. apply in_or_app. right. now left.
           ++ right. exists x. split; [| exact Hpx].
              rewrite Erest. subst r. apply in_app_or in Hx. apply in_or_app.
              destruct Hx as [Hx | Hx]; [now left | right; now right].
        -- rewrite Erest. subst r. rewrite total_points_app in *.
           change (total_points (ring :: post))
             with (List.length ring + total_points post)%nat. lia.
      * exists merged. repeat split; auto; lia.
      * exfalso. exact (mergePass_total merged [] (ring0 :: rest0) Hm Hall E).
Qed.

Lemma mergeLoop_empty_ring (fuel : nat) (merged : list Point)
    (remaining : list (list Point)) :
  (List.length remaining <= fuel)%nat -> In [] remaining ->
  mergeLoop fuel merged remaining = None.
Proof.
  revert merged remaining.
  induction fuel as [| fuel IH]; intros merged remaining Hlen Hin.
  - destruct remaining; [contradiction | cbn in Hlen; lia].
  - destruct remaining as [| ring rest]; [contradiction |].
    cbn [mergeLoop].
    pose proof (mergePass_empty_ring merged [] (ring :: rest) Hin) as Hp.
    destruct (mergePass merged [] (ring :: rest)) as [m r | |] eqn:E.
    + apply IH; [| exact Hp]. apply mergePass_length in E. cbn [List.length] in *. lia.
    + contradiction.
    + reflexivity.
Qed.

Lemma empty_ring_dec (rings : list (list Point)) :
  In [] rings \/ (forall ring, In ring rings -> ring <> []).
Proof.
  induction rings as [| ring rings [IH | IH]].
  - right. intros ring [].
  - left. now right.
  - destruct ring as [| p ring]; [left; now left |].
    right. intros x [<- | Hx]; [discriminate | now apply IH].
Qed.

(** X29: two rings or more, none of them empty: [mergeRings] returns a closed
    ring; it keeps every point of the first ring, holds points of the
    given rings only, and is at most one point longer than all rings
    together. *)
Theorem mergeRings_closed (first second : list Point) (rest : list (list Point)) :
  (forall ring, In ring (first :: second :: rest) -> ring <> []) ->
  exists merged : list Point,
    mergeRings (first :: second :: rest) = Some merged /\
    merged <> [] /\
    closed_ring merged /\
    (forall p, In p first -> In p merged) /\
    (forall p, In p merged -> exists ring, In ring (first :: second :: rest) /\ In p ring) /\
    (List.length merged <= total_points (first :: second :: rest) + 1)%nat.
Proof.
  intros Hall.
  assert (Hf : first <> []) by (apply Hall; now left).
  assert (Hrest : forall ring, In ring (second :: rest) -> ring <> [])
    by (intros ring Hr; apply Hall; now right).
  destruct (mergeLoop_points (List.length (second :: rest)) first (second :: rest) Hf Hrest)
    as (m & E & Hne & Hi1 & Hi2 & Hl).
  pose proof (closeRing_spec m) as (Hc & Hin & Hlen & Hnn).
  exists (closeRing m). unfold mergeRings. rewrite E.
  split; [reflexivity |]. split; [now apply Hnn |]. split; [exact Hc |].
  split; [intros p Hp; apply Hin, Hi1, Hp |]. split.
  - intros p Hp. apply Hin in Hp. destruct (Hi2 p Hp) as [H | (ring & Hr & Hpr)].
    + exists first. split; [now left | exact H].
    + exists ring. split; [now right | exact Hpr].
  - change (total_points (first :: second :: rest))
      with (List.length first + total_points (second :: rest))%nat. lia.
Qed.

(** Two arms of a shoreline that meet end to start. *)
Lemma mergeRings_closed_witness :
  let a : list Point := [(0, 0); (1, 0); (1, 1)] in
  let b : list Point := [(1, 1); (0, 1)] in
  (forall ring, In ring [a; b] -> ring <> []) /\
  mergeRings [a; b] = Some [(0, 0); (1, 0); (1, 1); (0, 1); (0, 0)].
Proof.
  intros a b.
  assert (H : forall ring, In ring [a; b] -> ring <> [])
    by (intros ring [<- | [<- | []]]; discriminate).
  split; [exact H |].
  destruct (mergeRings_closed a b [] H) as (m & E & _). reflexivity.
Defined.

Lemma mergeRings_some (first second : list Point) (rest : list (list Point)) :
  (forall ring, In ring (first :: second :: rest) -> ring <> []) ->
  exists merged : list Point, mergeRings (first :: second :: rest) = Some merged.
Proof.
  intros Hall.
  assert (Hf : first <> []) by (apply Hall; now left).
  assert (Hrest : forall ring, In ring (second :: rest) -> ring <> [])
    by (intros ring Hr; apply Hall; now right).
  destruct (mergeLoop_points (List.length (second :: rest)) first (second :: rest) Hf Hrest)
    as (m & E & _).
  exists (closeRing m). unfold mergeRings. now rewrite E.
Qed.

(** X30: [mergeRings] fails (it throws) exactly when it is given two rings or
    more and one of them is empty; no ring gives the empty ring, and a
    single ring is returned as it is, closed or not. *)
Theorem mergeRings_throws_iff (rings : list (list Point)) :
  (mergeRings rings = None <-> (2 <= List.length rings)%nat /\ In [] rings) /\
  mergeRings [] = Some [] /\
  (forall ring, mergeRings [ring] = Some ring).
Proof.
  split; [| split; reflexivity].
  destruct rings as [| first [| second rest]].
  - cbn. split; [discriminate | intros [H _]; lia].
  - cbn. split; [discriminate | intros [H _]; lia].
  - split.
    + intros Hnone. split; [cbn; lia |].
      destruct (empty_ring_dec (first :: second :: rest)) as [H | H]; [exact H |].
      destruct (mergeRings_some first second rest H) as (m & E). congruence.
    + intros [_ Hin]. unfold mergeRings.
      destruct first as [| p first].
      * reflexivity.
      * destruct Hin as [Hin | Hin]; [discriminate |].
        rewrite (mergeLoop_empty_ring _ _ _ (Nat.le_refl _) Hin). reflexivity.
Qed.

(** ** Lake boundary: a closed way stays as it is

    The route closes every way it reads, and [mergeRings] closes its
    result with the same test. *)

(** X28: closing a ring gives a closed ring with the same points: the ring
    itself when it is empty or already ends on the coordinates of its
    first point, the ring with its first point appended otherwise; a
    second closing changes nothing. *)
Theorem closeRing_closes_once (ring : list Point) :
  closed_ring (closeRing ring) /\
  (forall p, In p (closeRing ring) <-> In p ring) /\
  ((closed_ring ring /\ closeRing ring = ring) \/
   (~ closed_ring ring /\
    exists first rest, ring = first :: rest /\ closeRing ring = ring ++ [first])) /\
  closeRing (closeRing ring) = closeRing ring.
Proof.
  pose proof (closeRing_spec ring) as (Hc & Hin & _ & _).
  split; [exact Hc |]. split; [exact Hin |]. split; [| apply closeRing_idempotent].
  destruct ring as [| first rest]; [left; split; [exact I | reflexivity] |].
  unfold closeRing.
  destruct (negb (Qeq_bool (fst first) (fst (last (first :: rest) first)))
            || negb (Qeq_bool (snd first) (snd (last (first :: rest) first)))) eqn:E.
  - right. split; [| exists first, rest; split; reflexivity].
    intros [H1 H2]. apply Qeq_eq_bool in H1, H2.
    rewrite H1, H2 in E. discriminate E.
  - left. apply orb_false_iff in E. destruct E as [E1 E2].
    apply negb_false_iff in E1, E2. apply Qeq_bool_eq in E1, E2.
    split; [split; assumption | reflexivity].
Qed.
